(** * LogTape OpenTelemetry sink ([mod.ts]): record conversion

    A shallow embedding of the conversion code of [mod.ts]
    ([mapLevelToSeverityNumber], [convertToAttributes], [convertToString],
    [convertMessageToBody], the [sink] closure of [getOpenTelemetrySink]
    and [DiagLoggerAdaptor]) together with the properties stated about it.

    JavaScript is untyped at run time, so one type [JSValue] stands for
    every run-time value that travels through the sink.  Objects used as
    string-keyed records that the code only reads in order
    ([Object.entries]) are entry lists; the attribute object the code
    builds by assignment is a [gmap].  Built-ins whose result depends on
    the host ([Deno.inspect], [JSON.stringify], [Date.prototype.toISOString],
    [ToString] of objects) are fields of a [Host] record; the general
    theorems hold for every host.  A [Host] covers the executions in
    which those built-ins return; values are finite trees without BigInt
    and symbol values and without invalid dates.  The functions with the
    prefix [try_] are the same code with built-ins that can throw
    ([ThrowingHost]); where they return, they return what the functions
    over a [Host] return. *)

From Stdlib Require Import ZArith Ascii String List Lia.
From stdpp Require Import base option list strings gmap fin_maps fin_map_dom.

Local Open Scope string_scope.
Local Open Scope list_scope.
Local Open Scope Z_scope.

(** ** Run-time values *)

(** JavaScript numbers: the integer-valued ones (meant in the safe range,
    where they are exact) and the three non-finite ones.  Fractions need
    binary64 arithmetic and are left out. *)
Inductive number : Type :=
  | Int (z : Z)
  | NaN
  | Infinity (negative : bool).

#[warnings="-register-all"]
Inductive JSValue : Type :=
  | VUndefined
  | VNull
  | VBoolean (b : bool)
  | VNumber (n : number)
  | VString (s : string)
  | VFunction (source : string)           (* a function, by its source text *)
  | VDate (t : Z)                          (* a valid Date, by its time value *)
  | VArray (elements : list JSValue)
  | VObject (entries : list (string * JSValue)).

(** [typeof v] *)
Definition typeof (v : JSValue) : string :=
  match v with
  | VUndefined => "undefined"
  | VNull => "object"
  | VBoolean _ => "boolean"
  | VNumber _ => "number"
  | VString _ => "string"
  | VFunction _ => "function"
  | VDate _ => "object"
  | VArray _ => "object"
  | VObject _ => "object"
  end.

(** [v == null]: true of [null] and [undefined] only. *)
Definition is_nullish (v : JSValue) : bool :=
  match v with
  | VUndefined | VNull => true
  | _ => false
  end.

(** [Array.isArray(v)] *)
Definition Array_isArray (v : JSValue) : bool :=
  match v with
  | VArray _ => true
  | _ => false
  end.

(** A [string | undefined] result as a value. *)
Definition of_optional (o : option string) : JSValue :=
  match o with
  | Some s => VString s
  | None => VUndefined
  end.

(** ** Decimal rendering of integers *)

Definition digit_char (d : Z) : ascii :=
  ascii_of_nat (48 + Z.to_nat d).

(** The decimal digits of [n >= 0], most significant first, in front of
    [acc]; [fuel] bounds the number of digits. *)
Fixpoint digits_acc (fuel : nat) (n : Z) (acc : string) : string :=
  match fuel with
  | O => acc
  | S fuel' =>
      let acc' := String (digit_char (n mod 10)) acc in
      if n <? 10 then acc' else digits_acc fuel' (n / 10) acc'
  end.

Definition decimal_nat (n : Z) : string :=
  digits_acc (S (Z.to_nat (Z.log2 n))) n "".

Definition decimal (z : Z) : string :=
  if z <? 0 then ("-" ++ decimal_nat (- z))%string else decimal_nat z.

(** [n.toString()] of a number.  For [Int z] these are the decimal
    digits, which is what the code gives for the safe integers (and up
    to 1e21); from 1e21 on [toString()] uses exponent notation, which is
    not modelled. *)
Definition Number_toString (n : number) : string :=
  match n with
  | Int z => decimal z
  | NaN => "NaN"
  | Infinity false => "Infinity"
  | Infinity true => "-Infinity"
  end.

(** [b.toString()] of a boolean. *)
Definition Boolean_toString (b : bool) : string :=
  if b then "true" else "false".

(** ** The host *)

Record Host : Type := {
  (** [globalThis.Deno.inspect], when the global and the function exist *)
  Deno_inspect : option (JSValue -> string);
  (** [JSON.stringify(v)]: a string, or [undefined] ([None]) *)
  JSON_stringify : JSValue -> option string;
  (** [d.toISOString()] of the Date with the given time value *)
  Date_toISOString : Z -> string;
  (** [ToString] of a function or object *)
  Object_toString : JSValue -> string
}.

Inductive ObjectRenderer : Type := Json | Inspect.

Inductive MessageType : Type := StringMessage | ArrayMessage.

Section Conversion.

Variable host : Host.

(** The module constant [inspect].  Its second test compares
    [globalThis.util.inspect] with the string ["function"], which no
    function equals, so without [Deno.inspect] the constant is
    [JSON.stringify]. *)
Definition inspect (v : JSValue) : JSValue :=
  match Deno_inspect host with
  | Some deno_inspect => VString (deno_inspect v)
  | None => of_optional (JSON_stringify host v)
  end.

Definition convertToString (v : JSValue) (objectRenderer : ObjectRenderer)
  : JSValue :=
  match v with
  | VNull | VUndefined | VString _ => v
  | _ =>
      match objectRenderer with
      | Inspect => inspect v
      | Json =>
          match v with
          | VNumber n => VString (Number_toString n)
          | VBoolean b => VString (Boolean_toString b)
          | VDate t => VString (Date_toISOString host t)
          | _ => of_optional (JSON_stringify host v)
          end
      end
  end.

(** The loop over the elements of an array property: [t] is the type of
    the last element seen that is not [null] or [undefined] ([None] for
    the initial [null]); [value] is the whole array, [rest] what is left
    to visit.  On the first element whose type differs from [t] the
    stringified array is assigned and the loop is left. *)
Fixpoint scan_elements (key : string) (value : list JSValue)
    (objectRenderer : ObjectRenderer) (t : option string)
    (rest : list JSValue) (attributes : gmap string JSValue)
  : gmap string JSValue :=
  match rest with
  | [] => attributes
  | v :: rest' =>
      if is_nullish v then
        scan_elements key value objectRenderer t rest' attributes
      else
        match t with
        | Some t' =>
            if negb (String.eqb (typeof v) t') then
              <[key := VArray (map (fun v => convertToString v objectRenderer)
                                   value)]> attributes
            else
              scan_elements key value objectRenderer (Some (typeof v))
                            rest' attributes
        | None =>
            scan_elements key value objectRenderer (Some (typeof v))
                          rest' attributes
        end
  end.

(** One turn of the loop over [Object.entries(properties)]. *)
Definition convert_entry (objectRenderer : ObjectRenderer)
    (attributes : gmap string JSValue) (entry : string * JSValue)
  : gmap string JSValue :=
  let '(name, value) := entry in
  let key := ("attributes." ++ name)%string in
  if is_nullish value then attributes
  else
    match value with
    | VArray elements =>
        let attributes :=
          scan_elements key elements objectRenderer None elements attributes in
        <[key := value]> attributes
    | _ =>
        let encoded := convertToString value objectRenderer in
        if is_nullish encoded then attributes
        else <[key := encoded]> attributes
    end.

(** [properties] is the object as [Object.entries] lists it. *)
Definition convertToAttributes (properties : list (string * JSValue))
    (objectRenderer : ObjectRenderer) : gmap string JSValue :=
  fold_left (convert_entry objectRenderer) properties ∅.

(** [message[i]] *)
Definition at_index (message : list JSValue) (i : nat) : JSValue :=
  default VUndefined (message !! i).

(** The [for] loop of [convertMessageToBody] from index [i] on; every turn
    adds 2 to [i], so [fuel] turns suffice when [length message <= i + 2 * fuel]. *)
Fixpoint body_loop (fuel : nat) (message : list JSValue)
    (objectRenderer : ObjectRenderer) (i : nat) (body : list JSValue)
  : list JSValue :=
  match fuel with
  | O => body
  | S fuel' =>
      if (i <? length message)%nat then
        let msg := at_index message i in
        let body := body ++ [msg] in
        if (length message <=? i + 1)%nat then body
        else
          let val := at_index message (i + 1) in
          let body := body ++ [convertToString val objectRenderer] in
          body_loop fuel' message objectRenderer (i + 2) body
      else body
  end.

Definition convertMessageToBody (message : list JSValue)
    (objectRenderer : ObjectRenderer) : list JSValue :=
  body_loop (length message) message objectRenderer 0 [].

End Conversion.

(** ** Severity mapping *)

(** The members of [SeverityNumber] of [@opentelemetry/api-logs] that
    [mod.ts] names, with the numbers the OpenTelemetry log data model
    gives them. *)
Module SeverityNumber.
Definition UNSPECIFIED : Z := 0.
Definition DEBUG : Z := 5.
Definition INFO : Z := 9.
Definition WARN : Z := 13.
Definition ERROR : Z := 17.
Definition FATAL : Z := 21.
End SeverityNumber.

Definition mapLevelToSeverityNumber (level : string) : Z :=
  if String.eqb level "debug" then SeverityNumber.DEBUG
  else if String.eqb level "info" then SeverityNumber.INFO
  else if String.eqb level "warning" then SeverityNumber.WARN
  else if String.eqb level "error" then SeverityNumber.ERROR
  else if String.eqb level "fatal" then SeverityNumber.FATAL
  else SeverityNumber.UNSPECIFIED.

(** ** Dates *)

(** A Date object, by its time value: milliseconds since the epoch, or
    [NaN] for an invalid date. *)
Record Date : Type := { time_value : number }.

(** [TimeClip] of ECMAScript on the numbers of the model: a time value
    is an integer of magnitude at most 8.64e15; an integer beyond and the
    non-finite numbers are clipped to [NaN].  (A fraction, which
    [TimeClip] truncates, is no [number] of the model.) *)
Definition TimeClip (t : number) : number :=
  match t with
  | Int z => if Z.abs z <=? 8640000000000000 then Int z else NaN
  | _ => NaN
  end.

(** [new Date(t)] for a number [t] *)
Definition new_Date (t : number) : Date := {| time_value := TimeClip t |}.

(** [d.getTime()] *)
Definition getTime (d : Date) : number := time_value d.

(** ** Records *)

(** LogTape's [LogRecord], the sink's input. *)
Record LogRecord : Type := {
  category : list string;
  level : string;
  message : list JSValue;
  timestamp : number;
  properties : list (string * JSValue)
}.

(** The [LogRecord] of [@opentelemetry/api-logs] ([OTLogRecord] in
    [mod.ts]), with the fields the sink sets. *)
Module OT.
Record LogRecord : Type := {
  severityNumber : Z;
  severityText : string;
  body : JSValue;
  attributes : gmap string JSValue;
  timestamp : Date
}.
End OT.

(** The options the [sink] closure reads on each record.  The others
    ([loggerProvider], [diagnostics], [serviceName], [otlpExporterConfig])
    are read once, when the sink is built; [loggerProvider] decides which
    logger the list [emitted] of [sink] stands for. *)
Record OpenTelemetrySinkOptions : Type := {
  messageType : option MessageType;
  objectRenderer : option ObjectRenderer
}.

Section Sink.

Variable host : Host.

(** [ToString(v)], as [Array.prototype.join] applies it to an element. *)
Definition ToString (v : JSValue) : string :=
  match v with
  | VUndefined => "undefined"
  | VNull => "null"
  | VBoolean b => Boolean_toString b
  | VNumber n => Number_toString n
  | VString s => s
  | _ => Object_toString host v
  end.

(** [elements.join(separator)]: [undefined] and [null] elements give the
    empty string, every other element its [ToString]. *)
Definition Array_join (elements : list JSValue) (separator : string)
  : string :=
  String.concat separator
    (map (fun v => if is_nullish v then ""%string else ToString v) elements).

(** [category[i] === s] *)
Definition segment_is (category : list string) (i : nat) (s : string)
  : bool :=
  match category !! i with
  | Some c => String.eqb c s
  | None => false
  end.

(** The [sink] closure of [getOpenTelemetrySink].  [emitted] is what
    [logger.emit] has received so far, oldest first.  This is the closure
    when every conversion returns; [try_sink] below is the closure with
    conversions that can throw. *)
Definition sink (options : OpenTelemetrySinkOptions) (record : LogRecord)
    (emitted : list OT.LogRecord) : list OT.LogRecord :=
  let objectRenderer := default Inspect (objectRenderer options) in
  let category := category record in
  if segment_is category 0 "logtape" && segment_is category 1 "meta"
     && segment_is category 2 "otel"
  then emitted
  else
    let severityNumber := mapLevelToSeverityNumber (level record) in
    let attributes :=
      convertToAttributes host (properties record) objectRenderer in
    let attributes := <["category" := VArray (map VString category)]> attributes in
    let body := convertMessageToBody host (message record) objectRenderer in
    emitted ++
    [ {| OT.severityNumber := severityNumber;
         OT.severityText := level record;
         OT.body :=
           match messageType options with
           | Some ArrayMessage => VArray body
           | _ =>
               VString
                 (Array_join
                    (map (fun v =>
                            match v with
                            | VUndefined => VString "undefined"
                            | VNull => VString "null"
                            | _ => v
                            end) body)
                    "")
           end;
         OT.attributes := attributes;
         OT.timestamp := new_Date (timestamp record) |} ].

End Sink.

(** ** The diagnostic logger adaptor *)

(** What LogTape receives from one call of a [Logger] method: the
    logger's category, the level of the method, the message template and
    the properties. *)
Record LogCall : Type := {
  call_category : list string;
  call_level : string;
  call_template : string;
  call_properties : list (string * JSValue)
}.

(** A LogTape [Logger], by its category. *)
Record Logger : Type := { logger_category : list string }.

Definition getLogger (category : list string) : Logger :=
  {| logger_category := category |}.

(** A call of the [Logger] method that logs at [level]; [calls] is what
    LogTape has received so far, oldest first. *)
Definition Logger_log (level : string) (logger : Logger) (template : string)
    (properties : list (string * JSValue)) (calls : list LogCall)
  : list LogCall :=
  calls ++ [ {| call_category := logger_category logger;
                call_level := level;
                call_template := template;
                call_properties := properties |} ].

(** [logger.error], [logger.warn], [logger.info] and [logger.debug]:
    LogTape's [warn] logs at the level ["warning"]. *)
Definition Logger_error := Logger_log "error".
Definition Logger_warn := Logger_log "warning".
Definition Logger_info := Logger_log "info".
Definition Logger_debug := Logger_log "debug".

(** [s.replaceAll(pattern, replacement)] for a pattern of one character
    and a replacement without [$]. *)
Fixpoint String_replaceAll (pattern : ascii) (replacement : string)
    (s : string) : string :=
  match s with
  | EmptyString => EmptyString
  | String c s' =>
      if Ascii.eqb c pattern
      then (replacement ++ String_replaceAll pattern replacement s')%string
      else String c (String_replaceAll pattern replacement s')
  end.

Module DiagLoggerAdaptor.

Record t : Type := { logger : Logger }.

Definition constructor : t :=
  {| logger := getLogger ["logtape"; "meta"; "otel"] |}.

Definition escape (msg : string) : string :=
  String_replaceAll "}" "}}" (String_replaceAll "{" "{{" msg).

Definition error (this : t) (msg : string) (values : list JSValue)
    (calls : list LogCall) : list LogCall :=
  Logger_error (logger this) (escape msg ++ ": {values}")%string
               [("values"%string, VArray values)] calls.

Definition warn (this : t) (msg : string) (values : list JSValue)
    (calls : list LogCall) : list LogCall :=
  Logger_warn (logger this) (escape msg ++ ": {values}")%string
              [("values"%string, VArray values)] calls.

Definition info (this : t) (msg : string) (values : list JSValue)
    (calls : list LogCall) : list LogCall :=
  Logger_info (logger this) (escape msg ++ ": {values}")%string
              [("values"%string, VArray values)] calls.

Definition debug (this : t) (msg : string) (values : list JSValue)
    (calls : list LogCall) : list LogCall :=
  Logger_debug (logger this) (escape msg ++ ": {values}")%string
               [("values"%string, VArray values)] calls.

Definition verbose (this : t) (msg : string) (values : list JSValue)
    (calls : list LogCall) : list LogCall :=
  Logger_debug (logger this) (escape msg ++ ": {values}")%string
               [("values"%string, VArray values)] calls.

End DiagLoggerAdaptor.

(** ** A reference host

    ECMAScript's own definitions of the built-ins on the modelled values,
    for a host without the [Deno] global and in the UTC time zone.  The
    examples are evaluated on it. *)
Module Reference.

(** [n] in decimal, padded with zeros to at least [width] digits. *)
Definition pad (width : nat) (n : Z) : string :=
  let s := decimal_nat n in
  (string_of_list_ascii (repeat "0"%char (width - String.length s)) ++ s)%string.

Definition msPerDay : Z := 86400000.

(** Year, month (1 to 12) and day of the month of the day [days] days
    after 1970-01-01, in the proleptic Gregorian calendar. *)
Definition civil_from_days (days : Z) : Z * Z * Z :=
  let z := days + 719468 in
  let era := z / 146097 in
  let doe := z - era * 146097 in
  let yoe := (doe - doe / 1460 + doe / 36524 - doe / 146096) / 365 in
  let doy := doe - (365 * yoe + yoe / 4 - yoe / 100) in
  let mp := (5 * doy + 2) / 153 in
  let d := doy - (153 * mp + 2) / 5 + 1 in
  let m := if mp <? 10 then mp + 3 else mp - 9 in
  let y := yoe + era * 400 + (if m <=? 2 then 1 else 0) in
  (y, m, d).

(** The time of day as [HH:mm:ss]. *)
Definition clock (ms : Z) : string :=
  (pad 2 (ms / 3600000)%Z ++ ":" ++ pad 2 (ms / 60000 mod 60)%Z ++ ":"
   ++ pad 2 (ms / 1000 mod 60)%Z)%string.

(** [Date.prototype.toISOString] on a valid time value. *)
Definition toISOString (t : Z) : string :=
  let '(y, m, d) := civil_from_days (t / msPerDay) in
  let ms := t mod msPerDay in
  let year :=
    if (0 <=? y) && (y <=? 9999) then pad 4 y
    else ((if (y <? 0)%Z then "-" else "+") ++ pad 6 (Z.abs y))%string in
  (year ++ "-" ++ pad 2 m ++ "-" ++ pad 2 d ++ "T" ++ clock ms
   ++ "." ++ pad 3 (ms mod 1000)%Z ++ "Z")%string.

Definition weekdays : list string :=
  ["Sun"; "Mon"; "Tue"; "Wed"; "Thu"; "Fri"; "Sat"]%string.

Definition months : list string :=
  ["Jan"; "Feb"; "Mar"; "Apr"; "May"; "Jun";
   "Jul"; "Aug"; "Sep"; "Oct"; "Nov"; "Dec"]%string.

(** [Date.prototype.toString] on a valid time value, in UTC. *)
Definition Date_toString (t : Z) : string :=
  let days := t / msPerDay in
  let '(y, m, d) := civil_from_days days in
  (nth (Z.to_nat ((days + 4) mod 7)%Z) weekdays "" ++ " "
   ++ nth (Z.to_nat (m - 1)%Z) months "" ++ " " ++ pad 2 d ++ " "
   ++ (if (y <? 0)%Z then "-" else "") ++ pad 4 (Z.abs y) ++ " "
   ++ clock (t mod msPerDay) ++ " GMT+0000 (Coordinated Universal Time)")%string.

Definition hex_digit (n : nat) : ascii :=
  nth n (list_ascii_of_string "0123456789abcdef") "0"%char.

(** The quotation mark, U+0022. *)
Definition quotation_mark : ascii := ascii_of_nat 34.

(** One character of a string inside [QuoteJSONString]. *)
Definition quote_char (c : ascii) : string :=
  let n := nat_of_ascii c in
  if Ascii.eqb c quotation_mark then String "\" (String quotation_mark "")
  else if Ascii.eqb c "\" then "\\"
  else if (n =? 8)%nat then "\b"
  else if (n =? 9)%nat then "\t"
  else if (n =? 10)%nat then "\n"
  else if (n =? 12)%nat then "\f"
  else if (n =? 13)%nat then "\r"
  else if (n <? 32)%nat then
    String "\" (String "u" (String "0" (String "0"
      (String (hex_digit (n / 16)) (String (hex_digit (n mod 16)) "")))))
  else String c "".

Fixpoint quote_chars (s : string) : string :=
  match s with
  | EmptyString => EmptyString
  | String c s' => (quote_char c ++ quote_chars s')%string
  end.

(** [QuoteJSONString] *)
Definition quote (s : string) : string :=
  (String quotation_mark (quote_chars s) ++ String quotation_mark "")%string.

(** [JSON.stringify(v)] without replacer or indentation:
    [SerializeJSONProperty].  [undefined] and functions have no
    rendering; inside an array they are rendered as [null], inside an
    object their key is left out.  A [toJSON] member of an object is a
    function like any other here: the call [JSON.stringify] makes of it
    is not modelled, except for the one that throws
    ([ThrowingReference]). *)
Fixpoint stringify (v : JSValue) : option string :=
  match v with
  | VUndefined | VFunction _ => None
  | VNull => Some "null"%string
  | VBoolean b => Some (Boolean_toString b)
  | VNumber (Int z) => Some (decimal z)
  | VNumber _ => Some "null"%string
  | VString s => Some (quote s)
  | VDate t => Some (quote (toISOString t))
  | VArray elements =>
      let rendered :=
        (fix each (l : list JSValue) : list string :=
           match l with
           | [] => []
           | e :: l' => default "null"%string (stringify e) :: each l'
           end) elements in
      Some ("[" ++ String.concat "," rendered ++ "]")%string
  | VObject entries =>
      let rendered :=
        (fix each (l : list (string * JSValue)) : list string :=
           match l with
           | [] => []
           | (k, e) :: l' =>
               match stringify e with
               | Some s => (quote k ++ ":" ++ s)%string :: each l'
               | None => each l'
               end
           end) entries in
      Some ("{" ++ String.concat "," rendered ++ "}")%string
  end.

(** [ToString] of a function or object: the source text, the Date's
    [toString], the array's [join(",")], and [[object Object]]. *)
Fixpoint ToString_object (v : JSValue) : string :=
  match v with
  | VFunction source => source
  | VDate t => Date_toString t
  | VArray elements =>
      String.concat ","
        ((fix each (l : list JSValue) : list string :=
            match l with
            | [] => []
            | e :: l' =>
                (match e with
                 | VUndefined | VNull => ""%string
                 | VBoolean b => Boolean_toString b
                 | VNumber n => Number_toString n
                 | VString s => s
                 | _ => ToString_object e
                 end) :: each l'
            end) elements)
  | _ => "[object Object]"%string
  end.

Definition host : Host :=
  {| Deno_inspect := None;
     JSON_stringify := stringify;
     Date_toISOString := toISOString;
     Object_toString := ToString_object |}.

End Reference.

(** ** Descriptions used in the statements *)

(** The key under which the property [name] is emitted. *)
Definition attribute_key (name : string) : string :=
  ("attributes." ++ name)%string.

(** What one property contributes under its key: nothing for [null] and
    [undefined], the array itself for an array, and for every other value
    its rendering unless that is [null] or [undefined]. *)
Definition entry_attribute (host : Host) (objectRenderer : ObjectRenderer)
    (v : JSValue) : option JSValue :=
  if is_nullish v then None
  else if Array_isArray v then Some v
  else
    let encoded := convertToString host v objectRenderer in
    if is_nullish encoded then None else Some encoded.

(** No property has the value [null], [undefined] or an array. *)
Definition plain_properties (properties : list (string * JSValue)) : Prop :=
  ∀ name v, (name, v) ∈ properties →
    is_nullish v = false ∧ Array_isArray v = false.

(** The keys of the result are the property names with the prefix
    [attributes.], one for each name and no other. *)
Definition one_key_per_property (host : Host)
    (properties : list (string * JSValue)) (objectRenderer : ObjectRenderer)
  : Prop :=
  ∀ key,
    key ∈ dom (convertToAttributes host properties objectRenderer)
    ↔ ∃ name, name ∈ properties.*1 ∧ key = attribute_key name.

(** The first three segments of the category are [logtape], [meta],
    [otel]. *)
Definition is_meta_otel (category : list string) : Prop :=
  take 3 category = ["logtape"; "meta"; "otel"]%string.

(** The text of one body fragment in a joined body. *)
Definition fragment_text (host : Host) (v : JSValue) : string :=
  match v with
  | VUndefined => "undefined"
  | VNull => "null"
  | _ => ToString host v
  end.

(** The message taken two entries at a time: the first of each pair as
    it is, the second rendered. *)
Fixpoint interleave (host : Host) (objectRenderer : ObjectRenderer)
    (message : list JSValue) : list JSValue :=
  match message with
  | [] => []
  | [msg] => [msg]
  | msg :: val :: rest =>
      msg :: convertToString host val objectRenderer
          :: interleave host objectRenderer rest
  end.

(** Every [{] and every [}] of the text twice, the rest unchanged. *)
Fixpoint double_delimiters (msg : string) : string :=
  match msg with
  | EmptyString => EmptyString
  | String c msg' =>
      if Ascii.eqb c "{" || Ascii.eqb c "}"
      then String c (String c (double_delimiters msg'))
      else String c (double_delimiters msg')
  end.

(** ** The choice of the [inspect] constant *)

(** The globals the initializer of [inspect] looks at: [None] when the
    global is missing, [Some None] when it has no [inspect] member, and
    [Some (Some v)] when its [inspect] member is [v]. *)
Record GlobalThis : Type := {
  global_Deno : option (option JSValue);
  global_util : option (option JSValue)
}.

(** What the constant is bound to: a value taken from a global, or
    [JSON.stringify]. *)
Inductive InspectConstant : Type :=
  | FromGlobal (v : JSValue)
  | JSONStringify.

(** The second alternative of the initializer: [util.inspect] is taken
    when it is strictly equal to the string [function]. *)
Definition inspect_from_util (g : GlobalThis) : InspectConstant :=
  match global_util g with
  | Some (Some (VString s)) =>
      if String.eqb s "function" then FromGlobal (VString s)
      else JSONStringify
  | _ => JSONStringify
  end.

(** The initializer of the constant [inspect]. *)
Definition inspect_constant (g : GlobalThis) : InspectConstant :=
  match global_Deno g with
  | Some (Some v) =>
      if String.eqb (typeof v) "function" then FromGlobal v
      else inspect_from_util g
  | _ => inspect_from_util g
  end.

(** ** Further descriptions *)

(** A value of the type [string | null | undefined]. *)
Definition is_rendered (v : JSValue) : bool :=
  match v with
  | VString _ | VNull | VUndefined => true
  | _ => false
  end.

(** The [typeof] of the elements that are neither [null] nor
    [undefined], in order. *)
Definition element_types (elements : list JSValue) : list string :=
  map typeof (filter (λ v, is_nullish v = false) elements).

(** All elements that are neither [null] nor [undefined] have the type
    [t]. *)
Definition all_of_type (t : string) (elements : list JSValue) : Prop :=
  ∀ t', t' ∈ element_types elements → t' = t.

(** The elements that are neither [null] nor [undefined] have one and the
    same type. *)
Definition homogeneous (elements : list JSValue) : Prop :=
  ∀ a b, a ∈ element_types elements → b ∈ element_types elements → a = b.

(** The test of [is_meta_otel] as a boolean. *)
Definition is_meta_otelb (category : list string) : bool :=
  bool_decide (take 3 category = ["logtape"; "meta"; "otel"]%string).

(** Reading an escaped text back: a brace and the character after it
    stand for the brace once. *)
Fixpoint unescape (s : string) : string :=
  match s with
  | EmptyString => EmptyString
  | String c s' =>
      if Ascii.eqb c "{" || Ascii.eqb c "}" then
        match s' with
        | EmptyString => String c EmptyString
        | String _ s'' => String c (unescape s'')
        end
      else String c (unescape s')
  end.

(** Every brace of the text is followed by the same brace, pair by pair:
    no brace stands alone. *)
Fixpoint well_escaped (s : string) : bool :=
  match s with
  | EmptyString => true
  | String c s' =>
      if Ascii.eqb c "{" || Ascii.eqb c "}" then
        match s' with
        | EmptyString => false
        | String c' s'' => Ascii.eqb c c' && well_escaped s''
        end
      else well_escaped s'
  end.

(** The text has no brace. *)
Fixpoint brace_free (s : string) : bool :=
  match s with
  | EmptyString => true
  | String c s' =>
      negb (Ascii.eqb c "{" || Ascii.eqb c "}") && brace_free s'
  end.

(** ** Built-ins that can fail

    [JSON.stringify] throws on some values (spec section 7 names cyclic
    structures; a [toJSON] member that throws is another), and so can an
    inspector, [toISOString] and [ToString].  The code catches nothing:
    a failure inside [convertToAttributes] or [convertMessageToBody]
    leaves the sink before [logger.emit].  The definitions below are the
    same functions with this path written out; a [Host] is the case in
    which every built-in returns. *)

(** How a call ends: it returns a value, or it throws. *)
Inductive Completion (A : Type) : Type :=
  | Normal (a : A)
  | Throw.

Arguments Normal {A} a.
Arguments Throw {A}.

(** [f] on the value of a call that returned. *)
Definition on_normal {A B : Type} (f : A → B) (c : Completion A)
  : Completion B :=
  match c with
  | Normal a => Normal (f a)
  | Throw => Throw
  end.

(** [l.map(f)]: the elements in order; the first call that throws ends
    the whole. *)
Fixpoint try_map {A B : Type} (f : A → Completion B) (l : list A)
  : Completion (list B) :=
  match l with
  | [] => Normal []
  | a :: l' =>
      match f a with
      | Normal b => on_normal (cons b) (try_map f l')
      | Throw => Throw
      end
  end.

Record ThrowingHost : Type := {
  try_Deno_inspect : option (JSValue → Completion string);
  try_JSON_stringify : JSValue → Completion (option string);
  try_Date_toISOString : Z → Completion string;
  try_Object_toString : JSValue → Completion string
}.

(** A host none of whose built-ins throws. *)
Definition returning (host : Host) : ThrowingHost :=
  {| try_Deno_inspect :=
       match Deno_inspect host with
       | Some deno_inspect => Some (λ v, Normal (deno_inspect v))
       | None => None
       end;
     try_JSON_stringify := λ v, Normal (JSON_stringify host v);
     try_Date_toISOString := λ t, Normal (Date_toISOString host t);
     try_Object_toString := λ v, Normal (Object_toString host v) |}.

(** The host that returns what the built-ins of [host] return, where
    they return. *)
Definition erase (host : ThrowingHost) : Host :=
  {| Deno_inspect :=
       match try_Deno_inspect host with
       | Some deno_inspect =>
           Some (λ v, match deno_inspect v with
                      | Normal s => s
                      | Throw => ""%string
                      end)
       | None => None
       end;
     JSON_stringify :=
       λ v, match try_JSON_stringify host v with
            | Normal o => o
            | Throw => None
            end;
     Date_toISOString :=
       λ t, match try_Date_toISOString host t with
            | Normal s => s
            | Throw => ""%string
            end;
     Object_toString :=
       λ v, match try_Object_toString host v with
            | Normal s => s
            | Throw => ""%string
            end |}.

Section ThrowingConversion.

Variable host : ThrowingHost.

Definition try_inspect (v : JSValue) : Completion JSValue :=
  match try_Deno_inspect host with
  | Some deno_inspect => on_normal VString (deno_inspect v)
  | None => on_normal of_optional (try_JSON_stringify host v)
  end.

Definition try_convertToString (v : JSValue) (objectRenderer : ObjectRenderer)
  : Completion JSValue :=
  match v with
  | VNull | VUndefined | VString _ => Normal v
  | _ =>
      match objectRenderer with
      | Inspect => try_inspect v
      | Json =>
          match v with
          | VNumber n => Normal (VString (Number_toString n))
          | VBoolean b => Normal (VString (Boolean_toString b))
          | VDate t => on_normal VString (try_Date_toISOString host t)
          | _ => on_normal of_optional (try_JSON_stringify host v)
          end
      end
  end.

Fixpoint try_scan_elements (key : string) (value : list JSValue)
    (objectRenderer : ObjectRenderer) (t : option string)
    (rest : list JSValue) (attributes : gmap string JSValue)
  : Completion (gmap string JSValue) :=
  match rest with
  | [] => Normal attributes
  | v :: rest' =>
      if is_nullish v then
        try_scan_elements key value objectRenderer t rest' attributes
      else
        match t with
        | Some t' =>
            if negb (String.eqb (typeof v) t') then
              on_normal (λ rendered, <[key := VArray rendered]> attributes)
                (try_map (λ v, try_convertToString v objectRenderer) value)
            else
              try_scan_elements key value objectRenderer (Some (typeof v))
                                rest' attributes
        | None =>
            try_scan_elements key value objectRenderer (Some (typeof v))
                              rest' attributes
        end
  end.

Definition try_convert_entry (objectRenderer : ObjectRenderer)
    (attributes : gmap string JSValue) (entry : string * JSValue)
  : Completion (gmap string JSValue) :=
  let '(name, value) := entry in
  let key := ("attributes." ++ name)%string in
  if is_nullish value then Normal attributes
  else
    match value with
    | VArray elements =>
        on_normal (λ attributes, <[key := value]> attributes)
          (try_scan_elements key elements objectRenderer None elements
             attributes)
    | _ =>
        match try_convertToString value objectRenderer with
        | Normal encoded =>
            if is_nullish encoded then Normal attributes
            else Normal (<[key := encoded]> attributes)
        | Throw => Throw
        end
    end.

(** The loop over the entries: a turn that throws ends it. *)
Fixpoint try_entries (objectRenderer : ObjectRenderer)
    (properties : list (string * JSValue))
    (attributes : gmap string JSValue)
  : Completion (gmap string JSValue) :=
  match properties with
  | [] => Normal attributes
  | entry :: properties' =>
      match try_convert_entry objectRenderer attributes entry with
      | Normal attributes' =>
          try_entries objectRenderer properties' attributes'
      | Throw => Throw
      end
  end.

Definition try_convertToAttributes (properties : list (string * JSValue))
    (objectRenderer : ObjectRenderer) : Completion (gmap string JSValue) :=
  try_entries objectRenderer properties ∅.

Fixpoint try_body_loop (fuel : nat) (message : list JSValue)
    (objectRenderer : ObjectRenderer) (i : nat) (body : list JSValue)
  : Completion (list JSValue) :=
  match fuel with
  | O => Normal body
  | S fuel' =>
      if (i <? length message)%nat then
        let msg := at_index message i in
        let body := body ++ [msg] in
        if (length message <=? i + 1)%nat then Normal body
        else
          let val := at_index message (i + 1) in
          match try_convertToString val objectRenderer with
          | Normal rendered =>
              try_body_loop fuel' message objectRenderer (i + 2)
                            (body ++ [rendered])
          | Throw => Throw
          end
      else Normal body
  end.

Definition try_convertMessageToBody (message : list JSValue)
    (objectRenderer : ObjectRenderer) : Completion (list JSValue) :=
  try_body_loop (length message) message objectRenderer 0 [].

Definition try_ToString (v : JSValue) : Completion string :=
  match v with
  | VUndefined => Normal "undefined"%string
  | VNull => Normal "null"%string
  | VBoolean b => Normal (Boolean_toString b)
  | VNumber n => Normal (Number_toString n)
  | VString s => Normal s
  | _ => try_Object_toString host v
  end.

Definition try_Array_join (elements : list JSValue) (separator : string)
  : Completion string :=
  on_normal (String.concat separator)
    (try_map (λ v, if is_nullish v then Normal ""%string else try_ToString v)
             elements).

(** The [sink] closure.  [Throw]: the call threw before [logger.emit],
    and what was emitted so far is as it was. *)
Definition try_sink (options : OpenTelemetrySinkOptions) (record : LogRecord)
    (emitted : list OT.LogRecord) : Completion (list OT.LogRecord) :=
  let objectRenderer := default Inspect (objectRenderer options) in
  let category := category record in
  if segment_is category 0 "logtape" && segment_is category 1 "meta"
     && segment_is category 2 "otel"
  then Normal emitted
  else
    let severityNumber := mapLevelToSeverityNumber (level record) in
    match try_convertToAttributes (properties record) objectRenderer with
    | Throw => Throw
    | Normal attributes =>
        let attributes :=
          <["category" := VArray (map VString category)]> attributes in
        match try_convertMessageToBody (message record) objectRenderer with
        | Throw => Throw
        | Normal body =>
            match
              match messageType options with
              | Some ArrayMessage => Normal (VArray body)
              | _ =>
                  on_normal VString
                    (try_Array_join
                       (map (fun v =>
                               match v with
                               | VUndefined => VString "undefined"
                               | VNull => VString "null"
                               | _ => v
                               end) body)
                       "")
              end
            with
            | Throw => Throw
            | Normal body' =>
                Normal
                  (emitted ++
                   [ {| OT.severityNumber := severityNumber;
                        OT.severityText := level record;
                        OT.body := body';
                        OT.attributes := attributes;
                        OT.timestamp := new_Date (timestamp record) |} ])
            end
        end
    end.

(** The sink called on the records one after the other, as long as no
    call throws. *)
Fixpoint try_run_sink (options : OpenTelemetrySinkOptions)
    (records : list LogRecord) (emitted : list OT.LogRecord)
  : Completion (list OT.LogRecord) :=
  match records with
  | [] => Normal emitted
  | record :: records' =>
      match try_sink options record emitted with
      | Normal emitted' => try_run_sink options records' emitted'
      | Throw => Throw
      end
  end.

End ThrowingConversion.

(** A reference host whose [JSON.stringify] can throw: it calls the
    [toJSON] member of an object, and of the functions such a member can
    be the model knows the one whose body throws. *)
Module ThrowingReference.

(** The function [() => { throw new Error() }]. *)
Definition throwing_function : JSValue :=
  VFunction "() => { throw new Error() }".

Definition is_throwing_function (v : JSValue) : bool :=
  match v with
  | VFunction source => String.eqb source "() => { throw new Error() }"
  | _ => false
  end.

(** [JSON.stringify(v)] comes to an object whose [toJSON] member is the
    throwing function. *)
Fixpoint calls_throwing_toJSON (v : JSValue) : bool :=
  match v with
  | VArray elements =>
      (fix any (l : list JSValue) : bool :=
         match l with
         | [] => false
         | e :: l' => calls_throwing_toJSON e || any l'
         end) elements
  | VObject entries =>
      (fix any (l : list (string * JSValue)) : bool :=
         match l with
         | [] => false
         | (k, e) :: l' =>
             (String.eqb k "toJSON" && is_throwing_function e)
             || calls_throwing_toJSON e || any l'
         end) entries
  | _ => false
  end.

Definition host : ThrowingHost :=
  {| try_Deno_inspect := None;
     try_JSON_stringify :=
       λ v, if calls_throwing_toJSON v then Throw
            else Normal (Reference.stringify v);
     try_Date_toISOString := λ t, Normal (Reference.toISOString t);
     try_Object_toString := λ v, Normal (Reference.ToString_object v) |}.

End ThrowingReference.

(** The conversions the sink makes for the record all return: the
    attributes, the body and, unless [messageType] is [array], the
    joined text. *)
Definition conversions_return (host : ThrowingHost)
    (options : OpenTelemetrySinkOptions) (record : LogRecord) : Prop :=
  ∃ attributes body,
    try_convertToAttributes host (properties record)
      (default Inspect (objectRenderer options)) = Normal attributes
    ∧ try_convertMessageToBody host (message record)
        (default Inspect (objectRenderer options)) = Normal body
    ∧ (messageType options = Some ArrayMessage
       ∨ ∃ text,
           try_Array_join host
             (map (fun v =>
                     match v with
                     | VUndefined => VString "undefined"
                     | VNull => VString "null"
                     | _ => v
                     end) body)
             "" = Normal text).

(** ** Attribute conversion: auxiliary facts *)

Section AttributeFacts.

Variable host : Host.
Variable objectRenderer : ObjectRenderer.

Lemma attribute_key_inj (a b : string) :
  attribute_key a = attribute_key b → a = b.
Proof. unfold attribute_key. intros H. by simplify_eq/=. Qed.

(** Whatever the element loop assigned under [key] is overwritten by the
    assignment that follows the loop. *)
Lemma scan_elements_overwritten key value t rest
    (attributes : gmap string JSValue) x :
  <[key := x]> (scan_elements host key value objectRenderer t rest attributes)
  = <[key := x]> attributes.
Proof.
  revert t. induction rest as [|v rest IH]; intros t; simpl; [done|].
  destruct (is_nullish v); [apply IH|].
  destruct t as [t'|]; [|apply IH].
  destruct (negb (String.eqb (typeof v) t')); [|apply IH].
  apply insert_insert_eq.
Qed.

Lemma convert_entry_spec (attributes : gmap string JSValue) name v :
  convert_entry host objectRenderer attributes (name, v)
  = match entry_attribute host objectRenderer v with
    | Some a => <[attribute_key name := a]> attributes
    | None => attributes
    end.
Proof.
  unfold convert_entry, entry_attribute, attribute_key.
  destruct (is_nullish v) eqn:Hnull; [done|].
  destruct v; cbn beta iota delta [Array_isArray]; try discriminate Hnull;
    try (by destruct (is_nullish (convertToString host _ objectRenderer))).
  apply scan_elements_overwritten.
Qed.

(** Keys that no property of the list can produce are left alone. *)
Lemma fold_lookup_foreign properties (attributes : gmap string JSValue) key :
  (∀ name, name ∈ properties.*1 → key ≠ attribute_key name) →
  fold_left (convert_entry host objectRenderer) properties attributes !! key
  = attributes !! key.
Proof.
  revert attributes.
  induction properties as [|[name v] properties IH]; intros attributes Hkey;
    cbn [fold_left]; [done|].
  rewrite fmap_cons in Hkey. cbn [fst] in Hkey.
  rewrite IH by (intros n Hn; apply Hkey; by right).
  rewrite convert_entry_spec.
  destruct (entry_attribute host objectRenderer v); [|done].
  apply lookup_insert_ne. intros E. by apply (Hkey name); [left|].
Qed.

(** With distinct names, the key of a property holds its contribution, or
    what was there before when it contributes nothing. *)
Lemma fold_lookup_entry properties (attributes : gmap string JSValue) name v :
  NoDup properties.*1 →
  (name, v) ∈ properties →
  fold_left (convert_entry host objectRenderer) properties attributes
    !! attribute_key name
  = match entry_attribute host objectRenderer v with
    | Some a => Some a
    | None => attributes !! attribute_key name
    end.
Proof.
  revert attributes.
  induction properties as [|[name' v'] properties IH];
    intros attributes Hnodup Hin; [by apply elem_of_nil in Hin|].
  rewrite fmap_cons in Hnodup. cbn [fst fold_left] in *.
  apply NoDup_cons in Hnodup as [Hfresh Hnodup].
  apply elem_of_cons in Hin as [Heq|Hin].
  - inversion Heq; subst name' v'.
    rewrite fold_lookup_foreign.
    + rewrite convert_entry_spec.
      destruct (entry_attribute host objectRenderer v); [|done].
      apply lookup_insert_eq.
    + intros n Hn E. apply attribute_key_inj in E. by subst n.
  - rewrite IH by done.
    destruct (entry_attribute host objectRenderer v); [done|].
    rewrite convert_entry_spec.
    destruct (entry_attribute host objectRenderer v'); [|done].
    apply lookup_insert_ne. intros E. apply attribute_key_inj in E. subst name'.
    apply Hfresh. by apply (list_elem_of_fmap_2 fst _ (name, v)).
Qed.

(** The keys of the result: those that were there, and the key of every
    property that contributes. *)
Lemma fold_dom properties (attributes : gmap string JSValue) key :
  key ∈ dom (fold_left (convert_entry host objectRenderer) properties attributes)
  ↔ key ∈ dom attributes
    ∨ ∃ name v, (name, v) ∈ properties ∧ key = attribute_key name
                ∧ is_Some (entry_attribute host objectRenderer v).
Proof.
  revert attributes.
  induction properties as [|[name v] properties IH]; intros attributes;
    cbn [fold_left].
  - split; [by left|]. intros [H|(n & w & H & _)]; [done|].
    by apply elem_of_nil in H.
  - rewrite IH, convert_entry_spec. split.
    + intros [H|(n & w & Hin & Hk & Hs)].
      * destruct (entry_attribute host objectRenderer v) as [a|] eqn:E;
          [|by left].
        apply elem_of_dom in H.
        destruct (decide (attribute_key name = key)) as [<-|Hne].
        -- right. exists name, v. rewrite E. split_and!; [left|done|by eexists].
        -- rewrite lookup_insert_ne in H by done. left. by apply elem_of_dom.
      * right. exists n, w. split_and!; [by right|done|done].
    + intros [H|(n & w & Hin & Hk & Hs)].
      * left. destruct (entry_attribute host objectRenderer v); [|done].
        rewrite dom_insert_L, elem_of_union. by right.
      * apply elem_of_cons in Hin as [Heq|Hin].
        -- inversion Heq; subst n w. left. destruct Hs as [a ->].
           rewrite dom_insert_L, elem_of_union, elem_of_singleton. by left.
        -- right. by exists n, w.
Qed.

(** A property that contributes nothing has no key in the result. *)
Lemma silent_entry_has_no_key properties name v :
  NoDup properties.*1 →
  (name, v) ∈ properties →
  entry_attribute host objectRenderer v = None →
  convertToAttributes host properties objectRenderer !! attribute_key name
  = None.
Proof.
  intros Hnodup Hin Hnone. unfold convertToAttributes.
  rewrite (fold_lookup_entry properties ∅ name v) by done.
  rewrite Hnone. apply lookup_empty.
Qed.

End AttributeFacts.

(** ** Message bodies: auxiliary facts *)

(** Induction over a list two elements at a time. *)
Lemma list_pair_ind {A : Type} (P : list A → Prop) :
  P [] → (∀ x, P [x]) → (∀ x y l, P l → P (x :: y :: l)) → ∀ l, P l.
Proof.
  intros Hnil Hone Hstep l.
  assert (P l ∧ ∀ x, P (x :: l)) as [H _]; [|exact H].
  induction l as [|y l [IH1 IH2]]; split; auto.
Qed.

Section BodyFacts.

Variable host : Host.
Variable objectRenderer : ObjectRenderer.

Lemma drop_at_index (message : list JSValue) i :
  (i < length message)%nat →
  drop i message = at_index message i :: drop (S i) message.
Proof.
  intros Hlt. destruct (lookup_lt_is_Some_2 message i Hlt) as [x Hx].
  unfold at_index. rewrite Hx. by apply drop_S.
Qed.

(** With enough fuel the loop appends the interleaving of what is left
    of the message from index [i] on. *)
Lemma body_loop_interleave fuel message i body :
  (length message ≤ i + 2 * fuel)%nat →
  body_loop host fuel message objectRenderer i body
  = body ++ interleave host objectRenderer (drop i message).
Proof.
  revert i body. induction fuel as [|fuel IH]; intros i body Hfuel.
  - rewrite drop_ge by lia. simpl. by rewrite app_nil_r.
  - cbn [body_loop]. destruct (Nat.ltb_spec i (length message)) as [Hlt|Hge].
    + rewrite (drop_at_index message i Hlt).
      destruct (Nat.leb_spec (length message) (i + 1)) as [Hlast|Hmore].
      * rewrite drop_ge by lia. done.
      * rewrite (drop_at_index message (S i)) by lia.
        cbn [interleave]. rewrite IH by lia.
        replace (i + 1)%nat with (S i) by lia.
        replace (i + 2)%nat with (S (S i)) by lia.
        by rewrite <- !app_assoc.
    + rewrite drop_ge by lia. simpl. by rewrite app_nil_r.
Qed.

Lemma convertMessageToBody_interleave message :
  convertMessageToBody host message objectRenderer
  = interleave host objectRenderer message.
Proof.
  unfold convertMessageToBody.
  rewrite body_loop_interleave by lia. by rewrite drop_0.
Qed.

Lemma interleave_length message :
  length (interleave host objectRenderer message) = length message.
Proof.
  induction message as [| |x y l IH] using list_pair_ind; simpl; congruence.
Qed.

Lemma interleave_even message i :
  Nat.Even i →
  interleave host objectRenderer message !! i = message !! i.
Proof.
  revert i.
  induction message as [| |x y l IH] using list_pair_ind; intros i Hi;
    [done|done|].
  destruct i as [|[|i]]; [done| |].
  - destruct Hi as [k Hk]. lia.
  - cbn [interleave]. rewrite !lookup_cons. apply IH.
    destruct Hi as [k Hk]. exists (k - 1)%nat. lia.
Qed.

Lemma interleave_odd message i :
  Nat.Odd i →
  interleave host objectRenderer message !! i
  = (λ v, convertToString host v objectRenderer) <$> message !! i.
Proof.
  revert i.
  induction message as [| |x y l IH] using list_pair_ind; intros i Hi.
  - done.
  - destruct i as [|i]; [|done]. destruct Hi as [k Hk]. lia.
  - destruct i as [|[|i]]; [|done|].
    + destruct Hi as [k Hk]. lia.
    + cbn [interleave]. rewrite !lookup_cons. apply IH.
      destruct Hi as [k Hk]. exists (k - 1)%nat. lia.
Qed.

End BodyFacts.

(** ** Attribute conversion *)

(** C1, at the input on which the code departs from it: for the property
    [a] with the mixed array [[1, "x"]] under the [json] renderer the
    element loop does assign the stringified array [["1", "x"]], but the
    assignment after the loop replaces it, and the emitted attribute is
    the array as it came, its number not stringified. *)
Theorem mixed_array_is_emitted_raw :
  scan_elements Reference.host "attributes.a"
    [VNumber (Int 1); VString "x"] Json None
    [VNumber (Int 1); VString "x"] ∅
  = {[ "attributes.a"%string := VArray [VString "1"; VString "x"] ]}
  ∧ convertToAttributes Reference.host
      [("a"%string, VArray [VNumber (Int 1); VString "x"])] Json
    = {[ "attributes.a"%string := VArray [VNumber (Int 1); VString "x"] ]}
  ∧ VArray [VNumber (Int 1); VString "x"]
    ≠ VArray (map (λ v, convertToString Reference.host v Json)
                  [VNumber (Int 1); VString "x"]).
Proof.
  split_and!.
  - reflexivity.
  - unfold convertToAttributes. cbn [fold_left].
    rewrite convert_entry_spec. cbn. by rewrite insert_empty.
  - cbn. discriminate.
Qed.

(** C6: a property whose value is [null] or [undefined], or whose value
    is no array and is rendered as [null] or [undefined], contributes no
    key: its turn of the loop leaves the attributes as they were, and in
    the result of [convertToAttributes] on a property object that holds
    it (names are distinct) its key is absent; for every host and
    renderer. *)
Theorem nullish_property_is_omitted (host : Host)
    (objectRenderer : ObjectRenderer) (name : string) (v : JSValue) :
  is_nullish v = true
  ∨ (Array_isArray v = false
     ∧ is_nullish (convertToString host v objectRenderer) = true) →
  (∀ attributes : gmap string JSValue,
     convert_entry host objectRenderer attributes (name, v) = attributes)
  ∧ (∀ properties : list (string * JSValue),
       NoDup properties.*1 →
       (name, v) ∈ properties →
       convertToAttributes host properties objectRenderer
         !! attribute_key name = None).
Proof.
  intros Hv.
  assert (entry_attribute host objectRenderer v = None) as Hnone.
  { unfold entry_attribute. destruct Hv as [->|[-> Hnull]]; [done|].
    cbn zeta. rewrite Hnull. by destruct (is_nullish v). }
  split.
  - intros attributes. by rewrite convert_entry_spec, Hnone.
  - intros properties Hnodup Hin.
    by apply (silent_entry_has_no_key host objectRenderer properties name v).
Qed.

Lemma nullish_property_is_omitted_witness :
  (∀ attributes : gmap string JSValue,
     convert_entry Reference.host Json attributes ("a"%string, VNull)
     = attributes)
  ∧ (∀ properties : list (string * JSValue),
       NoDup properties.*1 →
       ("a"%string, VNull) ∈ properties →
       convertToAttributes Reference.host properties Json
         !! attribute_key "a" = None).
Proof.
  apply (nullish_property_is_omitted Reference.host Json "a" VNull).
  left. reflexivity.
Defined.

(** A function is rendered as [undefined] under [json], and as a property
    beside a string it leaves the string's key alone in the result. *)
Example undefined_rendering_is_omitted :
  convertToString Reference.host (VFunction "() => {}") Json = VUndefined
  ∧ convertToAttributes Reference.host
      [("f"%string, VFunction "() => {}"); ("b"%string, VString "x");
       ("n"%string, VNull)] Json
    = {[ "attributes.b"%string := VString "x" ]}.
Proof.
  split; [reflexivity|].
  unfold convertToAttributes. cbn [fold_left].
  rewrite !convert_entry_spec. cbn. by rewrite insert_empty.
Qed.

Section KeyCount.

Variable host : Host.
Variable objectRenderer : ObjectRenderer.

(** When every property contributes and the names are distinct and new,
    the result grows by one key for each property. *)
Lemma fold_size properties (attributes : gmap string JSValue) :
  NoDup properties.*1 →
  (∀ name v, (name, v) ∈ properties →
     is_Some (entry_attribute host objectRenderer v)
     ∧ attributes !! attribute_key name = None) →
  size (fold_left (convert_entry host objectRenderer) properties attributes)
  = (size attributes + length properties)%nat.
Proof.
  revert attributes.
  induction properties as [|[name v] properties IH];
    intros attributes Hnodup Hall; cbn [fold_left length]; [lia|].
  rewrite fmap_cons in Hnodup. cbn [fst] in Hnodup.
  apply NoDup_cons in Hnodup as [Hfresh Hnodup].
  destruct (Hall name v) as [[a Ha] Hnone]; [left|].
  rewrite convert_entry_spec, Ha.
  rewrite IH; [rewrite map_size_insert_None by done; lia|done|].
  intros n w Hin. split; [by apply (Hall n w); right|].
  rewrite lookup_insert_ne; [by apply (Hall n w); right|].
  intros E. apply attribute_key_inj in E. subst n.
  apply Hfresh. by apply (list_elem_of_fmap_2 fst _ (name, w)).
Qed.

End KeyCount.

(** C7, amended: for a property object without [null], [undefined] and
    array values, none of whose values is rendered as [null] or
    [undefined], the keys of the result are exactly the property names
    with the prefix [attributes.], and there are as many keys as
    properties. *)
Theorem plain_properties_one_key_each (host : Host)
    (objectRenderer : ObjectRenderer) (properties : list (string * JSValue)) :
  plain_properties properties →
  (∀ name v, (name, v) ∈ properties →
     is_nullish (convertToString host v objectRenderer) = false) →
  one_key_per_property host properties objectRenderer
  ∧ (NoDup properties.*1 →
     size (convertToAttributes host properties objectRenderer)
     = length properties).
Proof.
  intros Hplain Hrendered.
  assert (∀ name v, (name, v) ∈ properties →
            is_Some (entry_attribute host objectRenderer v)) as Hsome.
  { intros n w Hin. unfold entry_attribute.
    destruct (Hplain n w Hin) as [-> ->]. cbn zeta.
    rewrite (Hrendered n w Hin). by eexists. }
  split.
  - intros key. unfold convertToAttributes. rewrite fold_dom. split.
    + intros [H|(n & w & Hin & -> & _)]; [by rewrite dom_empty_L in H|].
      exists n. split; [|done]. by apply (list_elem_of_fmap_2 fst _ (n, w)).
    + intros (n & Hn & ->). right.
      apply list_elem_of_fmap_1 in Hn as [[n' w] [-> Hin]].
      exists n', w. split_and!; [done|done|by apply (Hsome n' w)].
  - intros Hnodup. unfold convertToAttributes.
    rewrite fold_size; [by rewrite map_size_empty| done |].
    intros n w Hin. split; [by apply (Hsome n w)|apply lookup_empty].
Qed.

Lemma plain_properties_one_key_each_witness :
  one_key_per_property Reference.host
    [("user"%string, VString "alice"); ("count"%string, VNumber (Int 3))] Json
  ∧ (NoDup ["user"; "count"]%string →
     size (convertToAttributes Reference.host
             [("user"%string, VString "alice");
              ("count"%string, VNumber (Int 3))] Json) = 2%nat).
Proof.
  apply (plain_properties_one_key_each Reference.host Json
           [("user"%string, VString "alice"); ("count"%string, VNumber (Int 3))]).
  - intros n w Hin.
    apply elem_of_cons in Hin as [Heq|Hin]; [by inversion Heq|].
    apply elem_of_cons in Hin as [Heq|Hin]; [by inversion Heq|].
    by apply elem_of_nil in Hin.
  - intros n w Hin.
    apply elem_of_cons in Hin as [Heq|Hin]; [by inversion Heq|].
    apply elem_of_cons in Hin as [Heq|Hin]; [by inversion Heq|].
    by apply elem_of_nil in Hin.
Defined.

(** C7 as stated fails: a function is neither [null], [undefined] nor an
    array, [JSON.stringify] renders it as [undefined], and the property
    [f] that holds one gets no key under the [json] renderer. *)
Lemma function_property_gets_no_key :
  plain_properties [("f"%string, VFunction "() => {}")]
  ∧ ¬ one_key_per_property Reference.host
        [("f"%string, VFunction "() => {}")] Json.
Proof.
  split.
  - intros n w Hin.
    apply elem_of_cons in Hin as [Heq|Hin]; [by inversion Heq|].
    by apply elem_of_nil in Hin.
  - intros Hkeys.
    assert (attribute_key "f"
            ∈ dom (convertToAttributes Reference.host
                     [("f"%string, VFunction "() => {}")] Json)) as Hdom.
    { apply Hkeys. exists "f"%string. split; [left|done]. }
    apply elem_of_dom in Hdom as [a Ha]. discriminate Ha.
Qed.

(** C10: an array property is always emitted under its key, as the array
    it is, whatever its elements: empty, or holding only [null] and
    [undefined], or mixed; its [null] and [undefined] elements are
    therefore emitted as they are.  A property that is itself [null] or
    [undefined] has no key. *)
Theorem array_property_is_kept (host : Host)
    (objectRenderer : ObjectRenderer) (properties : list (string * JSValue))
    (name : string) (elements : list JSValue) :
  NoDup properties.*1 →
  (name, VArray elements) ∈ properties →
  convertToAttributes host properties objectRenderer !! attribute_key name
  = Some (VArray elements)
  ∧ (∀ name' v', (name', v') ∈ properties → is_nullish v' = true →
       convertToAttributes host properties objectRenderer
         !! attribute_key name' = None).
Proof.
  intros Hnodup Hin. split.
  - unfold convertToAttributes.
    by rewrite (fold_lookup_entry host objectRenderer properties ∅ name
                  (VArray elements)).
  - intros n w Hw Hnull.
    apply (silent_entry_has_no_key host objectRenderer properties n w);
      [done|done|].
    unfold entry_attribute. by rewrite Hnull.
Qed.

Lemma array_property_is_kept_witness :
  convertToAttributes Reference.host
    [("tags"%string, VArray [VNull; VUndefined]); ("gone"%string, VNull)]
    Inspect !! attribute_key "tags"
  = Some (VArray [VNull; VUndefined])
  ∧ (∀ name' v',
       (name', v') ∈ [("tags"%string, VArray [VNull; VUndefined]);
                      ("gone"%string, VNull)] →
       is_nullish v' = true →
       convertToAttributes Reference.host
         [("tags"%string, VArray [VNull; VUndefined]); ("gone"%string, VNull)]
         Inspect !! attribute_key name' = None).
Proof.
  apply (array_property_is_kept Reference.host Inspect
           [("tags"%string, VArray [VNull; VUndefined]); ("gone"%string, VNull)]
           "tags" [VNull; VUndefined]).
  - by apply (bool_decide_unpack _).
  - left.
Defined.

(** ** Severity mapping *)

(** C3: [mapLevelToSeverityNumber] sends [debug], [info], [warning],
    [error] and [fatal] to [DEBUG], [INFO], [WARN], [ERROR] and [FATAL],
    which differ from one another and from [UNSPECIFIED], and every other
    string to [UNSPECIFIED]; being a function on all strings it has a
    result for each. *)
Theorem mapLevelToSeverityNumber_total :
  mapLevelToSeverityNumber "debug" = SeverityNumber.DEBUG
  ∧ mapLevelToSeverityNumber "info" = SeverityNumber.INFO
  ∧ mapLevelToSeverityNumber "warning" = SeverityNumber.WARN
  ∧ mapLevelToSeverityNumber "error" = SeverityNumber.ERROR
  ∧ mapLevelToSeverityNumber "fatal" = SeverityNumber.FATAL
  ∧ NoDup [SeverityNumber.DEBUG; SeverityNumber.INFO; SeverityNumber.WARN;
           SeverityNumber.ERROR; SeverityNumber.FATAL;
           SeverityNumber.UNSPECIFIED]
  ∧ (∀ level : string,
       level ∉ ["debug"; "info"; "warning"; "error"; "fatal"]%string →
       mapLevelToSeverityNumber level = SeverityNumber.UNSPECIFIED)
  ∧ (∀ level : string,
       level ∈ ["debug"; "info"; "warning"; "error"; "fatal"]%string
       ∨ mapLevelToSeverityNumber level = SeverityNumber.UNSPECIFIED).
Proof.
  assert (∀ level : string,
            level ∉ ["debug"; "info"; "warning"; "error"; "fatal"]%string →
            mapLevelToSeverityNumber level = SeverityNumber.UNSPECIFIED)
    as Hother.
  { intros level Hlevel. unfold mapLevelToSeverityNumber.
    repeat match goal with
           | |- context [String.eqb level ?s] =>
               destruct (String.eqb_spec level s) as [->|_];
               [exfalso; apply Hlevel; repeat constructor|]
           end.
    reflexivity. }
  split_and!; try reflexivity; [by apply (bool_decide_unpack _)|done|].
  intros level.
  destruct (decide (level ∈ ["debug"; "info"; "warning"; "error"; "fatal"]%string));
    [by left|right; by apply Hother].
Qed.

(** ** Message bodies *)

(** C4: [convertMessageToBody] takes the message two entries at a time;
    the entry at an even index goes to the body as it is and the entry at
    an odd index, when there is one, rendered by [convertToString]; a
    message of odd length ends with its last literal.  The body has the
    order of the message and its length (so its length is the message's
    or one less, and never more).  [["a", 1, "b"]] gives
    [["a", "1", "b"]] and [["only"]] gives [["only"]] under [json]. *)
Theorem convertMessageToBody_interleaves (host : Host)
    (objectRenderer : ObjectRenderer) (message : list JSValue) :
  convertMessageToBody host message objectRenderer
  = interleave host objectRenderer message
  ∧ (∀ i, Nat.Even i →
       convertMessageToBody host message objectRenderer !! i = message !! i)
  ∧ (∀ i, Nat.Odd i →
       convertMessageToBody host message objectRenderer !! i
       = (λ v, convertToString host v objectRenderer) <$> message !! i)
  ∧ (Nat.Odd (length message) →
       last (convertMessageToBody host message objectRenderer)
       = last message)
  ∧ length (convertMessageToBody host message objectRenderer)
    = length message
  ∧ (length (convertMessageToBody host message objectRenderer)
     = length message
     ∨ S (length (convertMessageToBody host message objectRenderer))
       = length message)
  ∧ convertMessageToBody host
      [VString "a"; VNumber (Int 1); VString "b"] Json
    = [VString "a"; VString "1"; VString "b"]
  ∧ convertMessageToBody host [VString "only"] Json = [VString "only"].
Proof.
  assert (length (convertMessageToBody host message objectRenderer)
          = length message) as Hlen.
  { rewrite convertMessageToBody_interleave. apply interleave_length. }
  split_and!; try done.
  - apply convertMessageToBody_interleave.
  - intros i Hi. rewrite convertMessageToBody_interleave.
    by apply interleave_even.
  - intros i Hi. rewrite convertMessageToBody_interleave.
    by apply interleave_odd.
  - intros Hodd. rewrite !last_lookup, Hlen.
    rewrite convertMessageToBody_interleave. apply interleave_even.
    destruct Hodd as [k Hk]. exists k. rewrite Hk. simpl. lia.
  - by left.
Qed.

(** ** The sink *)

Section SinkFacts.

Variable host : Host.

(** The three comparisons of the sink's guard hold together exactly when
    the category starts with [logtape], [meta], [otel]. *)
Lemma guard_is_meta_otel (category : list string) :
  segment_is category 0 "logtape" && segment_is category 1 "meta"
  && segment_is category 2 "otel" = true
  ↔ is_meta_otel category.
Proof.
  unfold is_meta_otel, segment_is.
  destruct category as [|a [|b [|c rest]]]; cbn; try (split; discriminate).
  - rewrite andb_false_r. split; discriminate.
  - rewrite andb_false_r. split; discriminate.
  - rewrite !andb_true_iff, !String.eqb_eq. split.
    + by intros [[-> ->] ->].
    + intros E. by inversion E.
Qed.

Lemma sink_suppressed options record emitted :
  is_meta_otel (category record) →
  sink host options record emitted = emitted.
Proof.
  intros Hmeta. apply guard_is_meta_otel in Hmeta.
  unfold sink. cbn zeta. by rewrite Hmeta.
Qed.

(** What the sink emits for every other category. *)
Lemma sink_emitted options record emitted :
  ¬ is_meta_otel (category record) →
  ∃ r, sink host options record emitted = emitted ++ [r]
     ∧ OT.severityNumber r = mapLevelToSeverityNumber (level record)
     ∧ OT.severityText r = level record
     ∧ OT.attributes r !! "category"
       = Some (VArray (map VString (category record)))
     ∧ OT.timestamp r = new_Date (timestamp record)
     ∧ (messageType options = Some ArrayMessage →
        OT.body r
        = VArray (convertMessageToBody host (message record)
                    (default Inspect (objectRenderer options))))
     ∧ (messageType options ≠ Some ArrayMessage →
        OT.body r
        = VString
            (String.concat ""
               (map (fragment_text host)
                  (convertMessageToBody host (message record)
                     (default Inspect (objectRenderer options)))))).
Proof.
  intros Hmeta. rewrite <- guard_is_meta_otel in Hmeta.
  apply not_true_is_false in Hmeta.
  unfold sink. cbn zeta. rewrite Hmeta.
  eexists. split; [reflexivity|]. cbn [OT.severityNumber OT.severityText
    OT.attributes OT.timestamp OT.body].
  split_and!; try done.
  - apply lookup_insert_eq.
  - by intros ->.
  - intros Hstring.
    assert (∀ body : list JSValue,
              Array_join host
                (map (λ v, match v with
                           | VUndefined => VString "undefined"
                           | VNull => VString "null"
                           | _ => v
                           end) body) ""
              = String.concat "" (map (fragment_text host) body)) as Hjoin.
    { intros body. unfold Array_join. rewrite map_map. f_equal.
      apply map_ext. by intros []. }
    destruct (messageType options) as [[]|]; [|done|]; by rewrite Hjoin.
Qed.

End SinkFacts.

(** C5: when [messageType] is [string] or left out, the body of the
    emitted record is the text of the body fragments one after the other,
    a [null] fragment as the text [null] and an [undefined] one as the
    text [undefined]; the fragments [x=], [null], [,y=], [undefined] give
    [x=null,y=undefined]. *)
Theorem string_body_joins_fragments (host : Host)
    (options : OpenTelemetrySinkOptions) (record : LogRecord)
    (emitted : list OT.LogRecord) :
  default StringMessage (messageType options) = StringMessage →
  ¬ is_meta_otel (category record) →
  (∃ r, sink host options record emitted = emitted ++ [r]
      ∧ OT.body r
        = VString
            (String.concat ""
               (map (fragment_text host)
                  (convertMessageToBody host (message record)
                     (default Inspect (objectRenderer options))))))
  ∧ String.concat ""
      (map (fragment_text host)
         [VString "x="; VNull; VString ",y="; VUndefined])
    = "x=null,y=undefined"%string.
Proof.
  intros Hstring Hother. split; [|reflexivity].
  destruct (sink_emitted host options record emitted Hother)
    as (r & Hr & _ & _ & _ & _ & _ & Hbody).
  exists r. split; [done|]. apply Hbody. intros E. by rewrite E in Hstring.
Qed.

Lemma string_body_joins_fragments_witness :
  (∃ r, sink Reference.host
          {| messageType := None; objectRenderer := Some Json |}
          {| category := ["app"]%string; level := "info";
             message := [VString "x="; VNull; VString ",y="; VUndefined];
             timestamp := Int 0; properties := [] |} []
        = [] ++ [r]
      ∧ OT.body r
        = VString
            (String.concat ""
               (map (fragment_text Reference.host)
                  (convertMessageToBody Reference.host
                     [VString "x="; VNull; VString ",y="; VUndefined]
                     Json))))
  ∧ String.concat ""
      (map (fragment_text Reference.host)
         [VString "x="; VNull; VString ",y="; VUndefined])
    = "x=null,y=undefined"%string.
Proof.
  apply (string_body_joins_fragments Reference.host
           {| messageType := None; objectRenderer := Some Json |}
           {| category := ["app"]%string; level := "info";
              message := [VString "x="; VNull; VString ",y="; VUndefined];
              timestamp := Int 0; properties := [] |} []).
  - reflexivity.
  - unfold is_meta_otel. simpl. discriminate.
Defined.

(** The record of the example above is emitted with the body
    [x=null,y=undefined]. *)
Example string_body_example :
  OT.body <$>
    sink Reference.host
      {| messageType := None; objectRenderer := None |}
      {| category := ["app"]%string; level := "info";
         message := [VString "x="; VNull; VString ",y="; VUndefined];
         timestamp := Int 0; properties := [] |} []
  = [VString "x=null,y=undefined"].
Proof. reflexivity. Qed.

(** C9, amended: when the timestamp of the record is a whole number of
    milliseconds of magnitude at most 8.64e15 (the time values a Date can
    hold), the record that is emitted carries a Date whose [getTime()] is
    that number. *)
Theorem timestamp_round_trip (host : Host)
    (options : OpenTelemetrySinkOptions) (record : LogRecord)
    (emitted : list OT.LogRecord) (ms : Z) :
  ¬ is_meta_otel (category record) →
  timestamp record = Int ms →
  Z.abs ms ≤ 8640000000000000 →
  ∃ r, sink host options record emitted = emitted ++ [r]
     ∧ getTime (OT.timestamp r) = timestamp record.
Proof.
  intros Hother Hms Hrange.
  destruct (sink_emitted host options record emitted Hother)
    as (r & Hr & _ & _ & _ & Htime & _).
  exists r. split; [done|].
  rewrite Htime, Hms. unfold getTime, new_Date, TimeClip. cbn [time_value].
  destruct (Z.leb_spec (Z.abs ms) 8640000000000000); [done|lia].
Qed.

Lemma timestamp_round_trip_witness :
  ∃ r, sink Reference.host
         {| messageType := None; objectRenderer := None |}
         {| category := ["app"; "db"]%string; level := "info";
            message := [VString "started"];
            timestamp := Int 1700000000000; properties := [] |} []
       = [] ++ [r]
     ∧ getTime (OT.timestamp r) = Int 1700000000000.
Proof.
  apply (timestamp_round_trip Reference.host
           {| messageType := None; objectRenderer := None |}
           {| category := ["app"; "db"]%string; level := "info";
              message := [VString "started"];
              timestamp := Int 1700000000000; properties := [] |} []
           1700000000000).
  - unfold is_meta_otel. simpl. discriminate.
  - reflexivity.
  - simpl. lia.
Defined.

(** C9 as stated fails: 8640000000000001 is a number of milliseconds a
    record can carry, [new Date] clips it to an invalid date, and the
    emitted Date gives [NaN] back. *)
Lemma timestamp_beyond_date_range_is_lost :
  ∃ r, sink Reference.host
         {| messageType := None; objectRenderer := None |}
         {| category := ["app"]%string; level := "info";
            message := [VString "late"];
            timestamp := Int 8640000000000001; properties := [] |} []
       = [r]
     ∧ getTime (OT.timestamp r) = NaN
     ∧ getTime (OT.timestamp r) ≠ Int 8640000000000001.
Proof. eexists. split; [reflexivity|]. split; [reflexivity|discriminate]. Qed.

(** ** The diagnostic logger adaptor *)

(** The two replacements of [#escape] together double every brace: the
    second pass does not touch what the first one inserted. *)
Lemma escape_doubles_delimiters (msg : string) :
  DiagLoggerAdaptor.escape msg = double_delimiters msg.
Proof.
  unfold DiagLoggerAdaptor.escape.
  induction msg as [|c msg IH]; [done|].
  cbn [String_replaceAll double_delimiters].
  destruct (Ascii.eqb_spec c "{") as [->|Hopen].
  - change ("{{" +:+ String_replaceAll "{" "{{" msg)
      with (String "{" (String "{" (String_replaceAll "{" "{{" msg))).
    cbn. by rewrite IH.
  - cbn [String_replaceAll orb].
    destruct (Ascii.eqb_spec c "}") as [->|Hclose]; rewrite IH; done.
Qed.

Example escape_example :
  DiagLoggerAdaptor.escape "limit {n} of {}" = "limit {{n}} of {{}}"%string.
Proof. reflexivity. Qed.

(** C8: each of [error], [warn], [info], [debug] and [verbose] hands
    LogTape exactly one more record, under the category [logtape],
    [meta], [otel], at the level [error], [warning], [info], [debug] and
    [debug]; its template is the message with every brace doubled,
    followed by the slot [{values}], and its one property [values] holds
    the extra values as an array. *)
Theorem diagnostics_are_logged_once (msg : string) (values : list JSValue)
    (calls : list LogCall) :
  let this := DiagLoggerAdaptor.constructor in
  let logged (level : string) :=
    calls ++
    [ {| call_category := ["logtape"; "meta"; "otel"]%string;
         call_level := level;
         call_template := (double_delimiters msg ++ ": {values}")%string;
         call_properties := [("values"%string, VArray values)] |} ] in
  DiagLoggerAdaptor.error this msg values calls = logged "error"%string
  ∧ DiagLoggerAdaptor.warn this msg values calls = logged "warning"%string
  ∧ DiagLoggerAdaptor.info this msg values calls = logged "info"%string
  ∧ DiagLoggerAdaptor.debug this msg values calls = logged "debug"%string
  ∧ DiagLoggerAdaptor.verbose this msg values calls = logged "debug"%string.
Proof.
  cbn zeta.
  unfold DiagLoggerAdaptor.error, DiagLoggerAdaptor.warn,
    DiagLoggerAdaptor.info, DiagLoggerAdaptor.debug,
    DiagLoggerAdaptor.verbose, Logger_error, Logger_warn, Logger_info,
    Logger_debug, Logger_log.
  rewrite escape_doubles_delimiters. by split_and!.
Qed.

(** ** Further properties of the rendering *)

(** X1: [convertToString] always gives a string, [null] or [undefined];
    it leaves such a value as it is, whatever the renderer, so rendering
    a second time changes nothing. *)
Theorem convertToString_is_rendered (host : Host) (v : JSValue)
    (objectRenderer objectRenderer' : ObjectRenderer) :
  is_rendered (convertToString host v objectRenderer) = true
  ∧ (is_rendered v = true → convertToString host v objectRenderer = v)
  ∧ convertToString host (convertToString host v objectRenderer)
      objectRenderer'
    = convertToString host v objectRenderer.
Proof.
  assert (∀ w r, is_rendered w = true → convertToString host w r = w)
    as Hfixed by (by intros [] r Hw).
  assert (is_rendered (convertToString host v objectRenderer) = true) as Hr.
  { destruct v, objectRenderer; try done; cbn; unfold inspect;
      try (by destruct (Deno_inspect host); [|destruct (JSON_stringify host _)]);
      try (by destruct (JSON_stringify host _)). }
  split_and!; [done|apply Hfixed|by apply Hfixed].
Qed.

Section MoreAttributeFacts.

Variable host : Host.
Variable objectRenderer : ObjectRenderer.

(** What a contribution can be: the array itself, or the text of a value
    that is no array. *)
Lemma entry_attribute_Some v a :
  entry_attribute host objectRenderer v = Some a →
  is_nullish v = false
  ∧ ((Array_isArray v = true ∧ a = v)
     ∨ (Array_isArray v = false
        ∧ ∃ s, a = VString s
             ∧ convertToString host v objectRenderer = VString s)).
Proof.
  unfold entry_attribute. destruct (is_nullish v) eqn:Hnull; [done|].
  destruct (Array_isArray v) eqn:Harray.
  - intros [= <-]. split; [done|]. by left.
  - cbn zeta.
    pose proof (convertToString_is_rendered host v objectRenderer
                  objectRenderer) as [Hr _].
    destruct (convertToString host v objectRenderer) eqn:E; try done.
    intros [= <-]. split; [done|]. right. split; [done|]. by eexists.
Qed.

(** Where an entry of the result comes from. *)
Lemma fold_lookup_Some properties (attributes : gmap string JSValue) key a :
  fold_left (convert_entry host objectRenderer) properties attributes !! key
  = Some a →
  attributes !! key = Some a
  ∨ ∃ name v, (name, v) ∈ properties ∧ key = attribute_key name
              ∧ entry_attribute host objectRenderer v = Some a.
Proof.
  revert attributes.
  induction properties as [|[name v] properties IH]; intros attributes;
    cbn [fold_left]; [by left|].
  intros H. apply IH in H as [H|(n & w & Hin & Hk & Hs)].
  - rewrite convert_entry_spec in H.
    destruct (entry_attribute host objectRenderer v) as [b|] eqn:E;
      [|by left].
    destruct (decide (attribute_key name = key)) as [<-|Hne].
    + rewrite lookup_insert_eq in H. injection H as ->.
      right. exists name, v. split_and!; [left|done|done].
    + rewrite lookup_insert_ne in H by done. by left.
  - right. exists n, w. split_and!; [by right|done|done].
Qed.

(** The result on top of earlier attributes is the result on its own,
    laid over them. *)
Lemma fold_union properties (attributes : gmap string JSValue) :
  fold_left (convert_entry host objectRenderer) properties attributes
  = fold_left (convert_entry host objectRenderer) properties ∅ ∪ attributes.
Proof.
  revert attributes.
  induction properties as [|[name v] properties IH]; intros attributes;
    cbn [fold_left].
  - by rewrite (left_id_L ∅ (∪)).
  - rewrite IH. rewrite (IH (convert_entry _ _ ∅ _)).
    rewrite <- (assoc_L (∪)). f_equal.
    rewrite !convert_entry_spec.
    destruct (entry_attribute host objectRenderer v).
    + by rewrite insert_union_singleton_l, insert_empty.
    + by rewrite (left_id_L ∅ (∪)).
Qed.

(** When every property contributes, the keys are the names with the
    prefix. *)
Lemma contributing_properties_keys properties :
  (∀ name v, (name, v) ∈ properties →
     is_Some (entry_attribute host objectRenderer v)) →
  one_key_per_property host properties objectRenderer.
Proof.
  intros Hsome key. unfold convertToAttributes. rewrite fold_dom. split.
  - intros [H|(n & w & Hin & -> & _)]; [by rewrite dom_empty_L in H|].
    exists n. split; [|done]. by apply (list_elem_of_fmap_2 fst _ (n, w)).
  - intros (n & Hn & ->). right.
    apply list_elem_of_fmap_1 in Hn as [[n' w] [-> Hin]].
    exists n', w. split_and!; [done|done|by apply (Hsome n' w)].
Qed.

End MoreAttributeFacts.

(** X2: every entry of the result of [convertToAttributes] comes from a
    property that is neither [null] nor [undefined]; its key is the name
    with the prefix [attributes.], and its value is the property's array
    as it is, or else a string: the rendering of the property's value.
    No other kind of value is ever emitted. *)
Theorem attributes_are_arrays_or_strings (host : Host)
    (objectRenderer : ObjectRenderer) (properties : list (string * JSValue))
    (key : string) (a : JSValue) :
  convertToAttributes host properties objectRenderer !! key = Some a →
  ∃ name v,
    (name, v) ∈ properties ∧ key = attribute_key name
    ∧ is_nullish v = false
    ∧ ((Array_isArray v = true ∧ a = v)
       ∨ (Array_isArray v = false
          ∧ ∃ s, a = VString s
               ∧ convertToString host v objectRenderer = VString s)).
Proof.
  intros H. unfold convertToAttributes in H.
  apply fold_lookup_Some in H as [H|(n & w & Hin & Hk & Hs)];
    [by rewrite lookup_empty in H|].
  exists n, w. split_and!; [done|done|..];
    by apply (entry_attribute_Some host objectRenderer w a).
Qed.

Lemma attributes_are_arrays_or_strings_witness :
  ∃ name v,
    (name, v) ∈ [("n"%string, VNumber (Int 42)); ("z"%string, VNull)]
    ∧ "attributes.n"%string = attribute_key name
    ∧ is_nullish v = false
    ∧ ((Array_isArray v = true ∧ VString "42" = v)
       ∨ (Array_isArray v = false
          ∧ ∃ s, VString "42" = VString s
               ∧ convertToString Reference.host v Json = VString s)).
Proof.
  apply (attributes_are_arrays_or_strings Reference.host Json
           [("n"%string, VNumber (Int 42)); ("z"%string, VNull)]
           "attributes.n" (VString "42")).
  reflexivity.
Defined.

(** X3: adding properties composes: the attributes of two property lists
    one after the other are the attributes of each, those of the second
    laid over those of the first. *)
Theorem convertToAttributes_app (host : Host)
    (objectRenderer : ObjectRenderer)
    (properties more : list (string * JSValue)) :
  convertToAttributes host (properties ++ more) objectRenderer
  = convertToAttributes host more objectRenderer
    ∪ convertToAttributes host properties objectRenderer.
Proof.
  unfold convertToAttributes. rewrite fold_left_app. apply fold_union.
Qed.

(** X4: the order in which [Object.entries] lists the properties of an
    object does not matter: two listings of the same properties (names
    distinct) give the same attributes. *)
Theorem convertToAttributes_order_irrelevant (host : Host)
    (objectRenderer : ObjectRenderer)
    (properties properties' : list (string * JSValue)) :
  NoDup properties.*1 →
  properties ≡ₚ properties' →
  convertToAttributes host properties objectRenderer
  = convertToAttributes host properties' objectRenderer.
Proof.
  intros Hnodup Hperm.
  assert (NoDup properties'.*1) as Hnodup' by (by rewrite <- Hperm).
  apply map_eq. intros key. unfold convertToAttributes.
  destruct (decide (key ∈ attribute_key <$> properties.*1)) as [Hin|Hout].
  - apply list_elem_of_fmap_1 in Hin as (name & -> & Hname).
    apply list_elem_of_fmap_1 in Hname as ([n v] & -> & Hin).
    cbn [fst].
    rewrite (fold_lookup_entry host objectRenderer properties ∅ n v) by done.
    rewrite (fold_lookup_entry host objectRenderer properties' ∅ n v);
      [done|done|by rewrite <- Hperm].
  - rewrite !fold_lookup_foreign; [done|..].
    + intros name Hname ->. apply Hout. apply list_elem_of_fmap_2.
      by rewrite Hperm.
    + intros name Hname ->. apply Hout. by apply list_elem_of_fmap_2.
Qed.

Lemma convertToAttributes_order_irrelevant_witness :
  convertToAttributes Reference.host
    [("a"%string, VNumber (Int 1)); ("b"%string, VArray [VNull])] Json
  = convertToAttributes Reference.host
      [("b"%string, VArray [VNull]); ("a"%string, VNumber (Int 1))] Json.
Proof.
  apply (convertToAttributes_order_irrelevant Reference.host Json
           [("a"%string, VNumber (Int 1)); ("b"%string, VArray [VNull])]
           [("b"%string, VArray [VNull]); ("a"%string, VNumber (Int 1))]).
  - by apply (bool_decide_unpack _).
  - apply Permutation_swap.
Defined.

(** ** The element loop *)

Section ElementLoop.

Variable host : Host.
Variable objectRenderer : ObjectRenderer.

Lemma element_types_nullish v rest :
  is_nullish v = true → element_types (v :: rest) = element_types rest.
Proof.
  intros Hnull. unfold element_types.
  rewrite filter_cons_False; [done|]. by rewrite Hnull.
Qed.

Lemma element_types_typed v rest :
  is_nullish v = false →
  element_types (v :: rest) = typeof v :: element_types rest.
Proof.
  intros Hnull. unfold element_types. by rewrite filter_cons_True.
Qed.



End ElementLoop.


(** The loop on a mixed and on an unmixed array. *)
Example scan_elements_examples :
  scan_elements Reference.host "k"
    [VNumber (Int 1); VNull; VString "x"] Json None
    [VNumber (Int 1); VNull; VString "x"] ∅
  = {[ "k"%string := VArray [VString "1"; VNull; VString "x"] ]}
  ∧ scan_elements Reference.host "k"
      [VObject []; VUndefined; VArray []; VDate 0] Json None
      [VObject []; VUndefined; VArray []; VDate 0] ∅
    = ∅.
Proof. split; reflexivity. Qed.

(** ** Which properties are sure of a key *)

(** X7: where [Deno.inspect] exists, the [inspect] renderer gives a
    string for every value, so every property that is not [null],
    [undefined] or an array gets its key: a string as it is, every other
    value as its inspection. *)
Theorem deno_inspect_keeps_every_property (host : Host)
    (deno_inspect : JSValue → string)
    (properties : list (string * JSValue)) :
  Deno_inspect host = Some deno_inspect →
  plain_properties properties →
  one_key_per_property host properties Inspect
  ∧ (∀ name v,
       NoDup properties.*1 → (name, v) ∈ properties →
       convertToAttributes host properties Inspect !! attribute_key name
       = Some (match v with
               | VString s => VString s
               | _ => VString (deno_inspect v)
               end)).
Proof.
  intros Hdeno Hplain.
  assert (∀ name v, (name, v) ∈ properties →
            entry_attribute host Inspect v
            = Some (match v with
                    | VString s => VString s
                    | _ => VString (deno_inspect v)
                    end)) as Hentry.
  { intros n w Hin. destruct (Hplain n w Hin) as [Hnull Harray].
    unfold entry_attribute. rewrite Hnull, Harray. cbn zeta.
    destruct w; try done; cbn; unfold inspect; by rewrite Hdeno. }
  split.
  - apply contributing_properties_keys. intros n w Hin.
    rewrite (Hentry n w Hin). by eexists.
  - intros n w Hnodup Hin. unfold convertToAttributes.
    rewrite (fold_lookup_entry host Inspect properties ∅ n w) by done.
    by rewrite (Hentry n w Hin).
Qed.

Lemma deno_inspect_keeps_every_property_witness :
  one_key_per_property
    {| Deno_inspect := Some (λ _, "[Function]"%string);
       JSON_stringify := Reference.stringify;
       Date_toISOString := Reference.toISOString;
       Object_toString := Reference.ToString_object |}
    [("f"%string, VFunction "() => {}")] Inspect
  ∧ (∀ name v,
       NoDup [("f"%string, VFunction "() => {}")].*1 →
       (name, v) ∈ [("f"%string, VFunction "() => {}")] →
       convertToAttributes
         {| Deno_inspect := Some (λ _, "[Function]"%string);
            JSON_stringify := Reference.stringify;
            Date_toISOString := Reference.toISOString;
            Object_toString := Reference.ToString_object |}
         [("f"%string, VFunction "() => {}")] Inspect !! attribute_key name
       = Some (match v with
               | VString s => VString s
               | _ => VString ((λ _, "[Function]"%string) v)
               end)).
Proof.
  apply (deno_inspect_keeps_every_property
           {| Deno_inspect := Some (λ _, "[Function]"%string);
              JSON_stringify := Reference.stringify;
              Date_toISOString := Reference.toISOString;
              Object_toString := Reference.ToString_object |}
           (λ _, "[Function]"%string)
           [("f"%string, VFunction "() => {}")]).
  - reflexivity.
  - intros n w Hin.
    apply elem_of_cons in Hin as [Heq|Hin]; [by inversion Heq|].
    by apply elem_of_nil in Hin.
Defined.

(** ** Further properties of message bodies *)

Section MoreBodyFacts.

Variable host : Host.
Variable objectRenderer : ObjectRenderer.

Lemma interleave_app message more :
  Nat.Even (length message) →
  interleave host objectRenderer (message ++ more)
  = interleave host objectRenderer message
    ++ interleave host objectRenderer more.
Proof.
  induction message as [| |x y l IH] using list_pair_ind; intros Heven.
  - done.
  - destruct Heven as [k Hk]. simpl in Hk. lia.
  - cbn [app interleave]. rewrite IH; [done|].
    destruct Heven as [k Hk]. exists (k - 1)%nat. simpl in Hk. lia.
Qed.

Lemma interleave_rendered message :
  (∀ i v, Nat.Even i → message !! i = Some v → ∃ s, v = VString s) →
  Forall (λ v, is_rendered v = true) (interleave host objectRenderer message).
Proof.
  induction message as [| |x y l IH] using list_pair_ind; intros Hlit.
  - constructor.
  - destruct (Hlit 0%nat x) as [s ->]; [by exists 0%nat|done|].
    by repeat constructor.
  - destruct (Hlit 0%nat x) as [s ->]; [by exists 0%nat|done|].
    cbn [interleave]. constructor; [done|]. constructor.
    + apply (convertToString_is_rendered host y objectRenderer objectRenderer).
    + apply IH. intros i v [k Hk] Hv. apply (Hlit (S (S i)) v); [|done].
      exists (S k). lia.
Qed.

End MoreBodyFacts.

(** X8: [convertMessageToBody] works pair by pair, so it distributes over
    a message cut after an even number of entries. *)
Theorem convertMessageToBody_app (host : Host)
    (objectRenderer : ObjectRenderer) (message more : list JSValue) :
  Nat.Even (length message) →
  convertMessageToBody host (message ++ more) objectRenderer
  = convertMessageToBody host message objectRenderer
    ++ convertMessageToBody host more objectRenderer.
Proof.
  intros Heven. rewrite !convertMessageToBody_interleave.
  by apply interleave_app.
Qed.

Lemma convertMessageToBody_app_witness :
  convertMessageToBody Reference.host
    ([VString "a="; VNumber (Int 1)] ++ [VString ", b="; VNull; VString "."])
    Json
  = convertMessageToBody Reference.host [VString "a="; VNumber (Int 1)] Json
    ++ convertMessageToBody Reference.host
         [VString ", b="; VNull; VString "."] Json.
Proof.
  apply (convertMessageToBody_app Reference.host Json
           [VString "a="; VNumber (Int 1)]
           [VString ", b="; VNull; VString "."]).
  exists 1%nat. reflexivity.
Defined.

(** X9: when the entries at the even indices of the message are strings,
    as LogTape builds it, every entry of the body is a string, [null] or
    [undefined]: the type [convertMessageToBody] declares for it. *)
Theorem convertMessageToBody_is_rendered (host : Host)
    (objectRenderer : ObjectRenderer) (message : list JSValue) :
  (∀ i v, Nat.Even i → message !! i = Some v → ∃ s, v = VString s) →
  Forall (λ v, is_rendered v = true)
         (convertMessageToBody host message objectRenderer).
Proof.
  intros Hlit. rewrite convertMessageToBody_interleave.
  by apply interleave_rendered.
Qed.

Lemma convertMessageToBody_is_rendered_witness :
  Forall (λ v, is_rendered v = true)
         (convertMessageToBody Reference.host
            [VString "user "; VObject [("id"%string, VNumber (Int 7))];
             VString " in"] Json).
Proof.
  apply (convertMessageToBody_is_rendered Reference.host Json
           [VString "user "; VObject [("id"%string, VNumber (Int 7))];
            VString " in"]).
  intros i v Heven Hv.
  destruct i as [|[|[|i]]]; simpl in Hv.
  - injection Hv as <-. by eexists.
  - destruct Heven as [k Hk]. lia.
  - injection Hv as <-. by eexists.
  - discriminate Hv.
Defined.

(** ** Further properties of the sink *)

(** X11: the feedback loop is cut.  Whatever one of the five methods of
    the diagnostic adaptor hands to LogTape, a record under the category
    of that call, or under a child category of it, is dropped by the
    sink. *)
Theorem diagnostics_never_reach_the_provider (host : Host)
    (options : OpenTelemetrySinkOptions) (msg : string)
    (values : list JSValue) (calls : list LogCall)
    (emitted : list OT.LogRecord) :
  Forall
    (λ method : DiagLoggerAdaptor.t → string → list JSValue →
                list LogCall → list LogCall,
       ∃ call,
         method DiagLoggerAdaptor.constructor msg values calls
         = calls ++ [call]
         ∧ ∀ record child,
             category record = call_category call ++ child →
             sink host options record emitted = emitted)
    [DiagLoggerAdaptor.error; DiagLoggerAdaptor.warn; DiagLoggerAdaptor.info;
     DiagLoggerAdaptor.debug; DiagLoggerAdaptor.verbose].
Proof.
  repeat constructor; (eexists; split; [reflexivity|]);
    intros record child Hcategory; apply sink_suppressed;
    unfold is_meta_otel; by rewrite Hcategory.
Qed.

Section EmittedRecord.

Variable host : Host.

(** The record the sink emits, field by field. *)
Lemma sink_emitted_record options record emitted :
  ¬ is_meta_otel (category record) →
  ∃ r, sink host options record emitted = emitted ++ [r]
     ∧ OT.severityNumber r = mapLevelToSeverityNumber (level record)
     ∧ OT.severityText r = level record
     ∧ OT.attributes r
       = <["category" := VArray (map VString (category record))]>
           (convertToAttributes host (properties record)
              (default Inspect (objectRenderer options)))
     ∧ OT.timestamp r = new_Date (timestamp record)
     ∧ OT.body r
       = match messageType options with
         | Some ArrayMessage =>
             VArray (convertMessageToBody host (message record)
                       (default Inspect (objectRenderer options)))
         | _ =>
             VString
               (String.concat ""
                  (map (fragment_text host)
                     (convertMessageToBody host (message record)
                        (default Inspect (objectRenderer options)))))
         end.
Proof.
  intros Hother.
  destruct (sink_emitted host options record emitted Hother)
    as (r & Hr & Hnum & Htext & _ & Htime & Harray & Hstring).
  exists r. split_and!; try done.
  - pose proof Hother as Hguard. rewrite <- guard_is_meta_otel in Hguard.
    apply not_true_is_false in Hguard.
    unfold sink in Hr. cbn zeta in Hr. rewrite Hguard in Hr.
    apply app_inv_head in Hr. injection Hr as <-. done.
  - destruct (messageType options) as [[]|] eqn:E.
    + by apply Hstring.
    + by apply Harray.
    + by apply Hstring.
Qed.

(** No property is emitted under the key [category]. *)
Lemma convertToAttributes_no_category properties objectRenderer :
  convertToAttributes host properties objectRenderer !! "category" = None.
Proof.
  unfold convertToAttributes. rewrite fold_lookup_foreign; [done|].
  intros name _. unfold attribute_key. discriminate.
Qed.

End EmittedRecord.

(** X12: the [category] attribute never collides with a property: no
    property is emitted under the key [category] (a property of that name
    goes under [attributes.category]), so the emitted attributes are the
    converted properties and one key more, and every property attribute
    is emitted as converted. *)
Theorem category_never_clobbers_a_property (host : Host)
    (options : OpenTelemetrySinkOptions) (record : LogRecord)
    (emitted : list OT.LogRecord) :
  ¬ is_meta_otel (category record) →
  ∃ r, sink host options record emitted = emitted ++ [r]
     ∧ OT.attributes r !! "category"
       = Some (VArray (map VString (category record)))
     ∧ delete "category" (OT.attributes r)
       = convertToAttributes host (properties record)
           (default Inspect (objectRenderer options))
     ∧ size (OT.attributes r)
       = S (size (convertToAttributes host (properties record)
                    (default Inspect (objectRenderer options))))
     ∧ (∀ name,
          OT.attributes r !! attribute_key name
          = convertToAttributes host (properties record)
              (default Inspect (objectRenderer options))
              !! attribute_key name).
Proof.
  intros Hother.
  destruct (sink_emitted_record host options record emitted Hother)
    as (r & Hr & _ & _ & Hattributes & _).
  exists r. rewrite Hattributes. split_and!.
  - done.
  - apply lookup_insert_eq.
  - rewrite delete_insert_eq. apply delete_id.
    apply convertToAttributes_no_category.
  - apply map_size_insert_None. apply convertToAttributes_no_category.
  - intros name. apply lookup_insert_ne. unfold attribute_key. discriminate.
Qed.

Lemma category_never_clobbers_a_property_witness :
  ∃ r, sink Reference.host
         {| messageType := None; objectRenderer := Some Json |}
         {| category := ["app"]%string; level := "info";
            message := [VString "m"]; timestamp := Int 0;
            properties := [("category"%string, VString "mine")] |} []
       = [] ++ [r]
     ∧ OT.attributes r !! "category"
       = Some (VArray (map VString ["app"]%string))
     ∧ delete "category" (OT.attributes r)
       = convertToAttributes Reference.host
           [("category"%string, VString "mine")] Json
     ∧ size (OT.attributes r)
       = S (size (convertToAttributes Reference.host
                    [("category"%string, VString "mine")] Json))
     ∧ (∀ name,
          OT.attributes r !! attribute_key name
          = convertToAttributes Reference.host
              [("category"%string, VString "mine")] Json
              !! attribute_key name).
Proof.
  apply (category_never_clobbers_a_property Reference.host
           {| messageType := None; objectRenderer := Some Json |}
           {| category := ["app"]%string; level := "info";
              message := [VString "m"]; timestamp := Int 0;
              properties := [("category"%string, VString "mine")] |} []).
  unfold is_meta_otel. simpl. discriminate.
Defined.



(** ** Further properties of the escaping *)

Lemma unescape_double_delimiters (msg : string) :
  unescape (double_delimiters msg) = msg.
Proof.
  induction msg as [|c msg IH]; [done|]. cbn [double_delimiters].
  destruct (Ascii.eqb c "{" || Ascii.eqb c "}") eqn:Hbrace;
    cbn [unescape]; rewrite Hbrace; by rewrite IH.
Qed.

Lemma double_delimiters_app (a b : string) :
  double_delimiters (a +:+ b) = double_delimiters a +:+ double_delimiters b.
Proof.
  induction a as [|c a IH]; [done|].
  change (String c a +:+ b) with (String c (a +:+ b)).
  cbn [double_delimiters]. rewrite IH.
  by destruct (Ascii.eqb c "{" || Ascii.eqb c "}").
Qed.

Lemma double_delimiters_length (msg : string) :
  (String.length msg ≤ String.length (double_delimiters msg))%nat.
Proof.
  induction msg as [|c msg IH]; [done|]. cbn [double_delimiters].
  destruct (Ascii.eqb c "{" || Ascii.eqb c "}"); cbn [String.length]; lia.
Qed.

Lemma double_delimiters_fixed (msg : string) :
  double_delimiters msg = msg ↔ brace_free msg = true.
Proof.
  induction msg as [|c msg IH]; [done|].
  cbn [double_delimiters brace_free].
  destruct (Ascii.eqb c "{" || Ascii.eqb c "}"); cbn [negb andb].
  - split; [|done]. intros [= E].
    pose proof (double_delimiters_length msg) as Hlen.
    apply (f_equal String.length) in E. cbn [String.length] in E. lia.
  - rewrite <- IH. split; [by intros [= E]|by intros ->].
Qed.

Lemma double_delimiters_well_escaped (msg : string) :
  well_escaped (double_delimiters msg) = true.
Proof.
  induction msg as [|c msg IH]; [done|]. cbn [double_delimiters].
  destruct (Ascii.eqb c "{" || Ascii.eqb c "}") eqn:Hbrace;
    cbn [well_escaped]; rewrite Hbrace; [|done].
  by rewrite Ascii.eqb_refl.
Qed.

(** X16: [#escape] loses nothing: reading every doubled brace of the
    escaped text as one brace gives the message back, so two messages
    with the same escaped text are the same message. *)
Theorem escape_is_lossless (msg : string) :
  unescape (DiagLoggerAdaptor.escape msg) = msg
  ∧ (∀ msg', DiagLoggerAdaptor.escape msg = DiagLoggerAdaptor.escape msg' →
       msg = msg').
Proof.
  assert (∀ m, unescape (DiagLoggerAdaptor.escape m) = m) as Hback.
  { intros m. rewrite escape_doubles_delimiters.
    apply unescape_double_delimiters. }
  split; [apply Hback|].
  intros msg' E. rewrite <- (Hback msg), <- (Hback msg'). by rewrite E.
Qed.

(** X17: in the escaped text no brace stands alone: read from the left,
    every brace is followed by the same brace.  A message therefore
    cannot open or close a placeholder of the template it is put in. *)
Theorem escape_leaves_no_single_brace (msg : string) :
  well_escaped (DiagLoggerAdaptor.escape msg) = true.
Proof.
  rewrite escape_doubles_delimiters. apply double_delimiters_well_escaped.
Qed.

(** X18: [#escape] works character by character: the escaped text of a
    concatenation is the concatenation of the escaped texts, it is never
    shorter than the message, and it is the message itself exactly when
    the message has no brace. *)
Theorem escape_is_characterwise (a b : string) :
  DiagLoggerAdaptor.escape (a +:+ b)
  = DiagLoggerAdaptor.escape a +:+ DiagLoggerAdaptor.escape b
  ∧ (String.length a ≤ String.length (DiagLoggerAdaptor.escape a))%nat
  ∧ (DiagLoggerAdaptor.escape a = a ↔ brace_free a = true).
Proof.
  rewrite !escape_doubles_delimiters. split_and!.
  - apply double_delimiters_app.
  - apply double_delimiters_length.
  - apply double_delimiters_fixed.
Qed.

(** ** The [inspect] constant *)

(** X19: the initializer of [inspect] binds the constant to a function of
    a global only when that function is [Deno.inspect]: [util.inspect]
    is compared with the string [function] and not by its type, so when
    [Deno.inspect] is no function and [util.inspect] is one, the
    constant is [JSON.stringify]. *)
Theorem inspect_constant_is_deno_or_json (g : GlobalThis) :
  (∀ f, inspect_constant g = FromGlobal f → typeof f = "function" →
     global_Deno g = Some (Some f))
  ∧ (∀ u, global_util g = Some (Some u) → typeof u = "function" →
       (∀ d, global_Deno g = Some (Some d) → typeof d ≠ "function") →
       inspect_constant g = JSONStringify)
  ∧ (inspect_constant g = JSONStringify
     ∨ (∃ f, inspect_constant g = FromGlobal f
           ∧ typeof f = "function" ∧ global_Deno g = Some (Some f))
     ∨ (inspect_constant g = FromGlobal (VString "function")
        ∧ global_util g = Some (Some (VString "function")))).
Proof.
  assert (inspect_from_util g = JSONStringify
          ∨ (inspect_from_util g = FromGlobal (VString "function")
             ∧ global_util g = Some (Some (VString "function")))) as Hutil.
  { unfold inspect_from_util.
    destruct (global_util g) as [[[]|]|]; try by left.
    destruct (String.eqb_spec s "function") as [->|]; [by right|by left]. }
  assert (∀ u, global_util g = Some (Some u) → typeof u = "function" →
            inspect_from_util g = JSONStringify) as Hfunction.
  { intros u Hu Htype. unfold inspect_from_util. rewrite Hu.
    by destruct u. }
  unfold inspect_constant.
  destruct (global_Deno g) as [[d|]|] eqn:Hdeno.
  - destruct (String.eqb_spec (typeof d) "function") as [Hd|Hd].
    + split_and!.
      * by intros f [= <-] _.
      * intros u _ _ Hnot. by destruct (Hnot d).
      * right. left. by exists d.
    + split_and!.
      * intros f Hf Htype. destruct Hutil as [E|[E _]]; rewrite E in Hf;
          [done|]. injection Hf as <-. done.
      * intros u Hu Htype _. by apply (Hfunction u).
      * destruct Hutil as [E|[E Hu]]; [by left|by right; right].
  - split_and!.
    + intros f Hf Htype. destruct Hutil as [E|[E _]]; rewrite E in Hf;
        [done|]. injection Hf as <-. done.
    + intros u Hu Htype _. by apply (Hfunction u).
    + destruct Hutil as [E|[E Hu]]; [by left|by right; right].
  - split_and!.
    + intros f Hf Htype. destruct Hutil as [E|[E _]]; rewrite E in Hf;
        [done|]. injection Hf as <-. done.
    + intros u Hu Htype _. by apply (Hfunction u).
    + destruct Hutil as [E|[E Hu]]; [by left|by right; right].
Qed.

(** ** Severity numbers determine the known levels *)

(** X20: on the five levels it knows [mapLevelToSeverityNumber] is
    one-to-one, also against every other string: a level with the number
    of a known level is that level; and the number is [UNSPECIFIED]
    exactly for the strings that are none of the five. *)
Theorem mapLevelToSeverityNumber_injective :
  (∀ a b : string,
     a ∈ ["debug"; "info"; "warning"; "error"; "fatal"]%string →
     mapLevelToSeverityNumber a = mapLevelToSeverityNumber b → a = b)
  ∧ (∀ level : string,
       mapLevelToSeverityNumber level = SeverityNumber.UNSPECIFIED
       ↔ level ∉ ["debug"; "info"; "warning"; "error"; "fatal"]%string).
Proof.
  assert (∀ level : string,
            (level = "debug" ∧ mapLevelToSeverityNumber level = 5)
            ∨ (level = "info" ∧ mapLevelToSeverityNumber level = 9)
            ∨ (level = "warning" ∧ mapLevelToSeverityNumber level = 13)
            ∨ (level = "error" ∧ mapLevelToSeverityNumber level = 17)
            ∨ (level = "fatal" ∧ mapLevelToSeverityNumber level = 21)
            ∨ ((level ∉ ["debug"; "info"; "warning"; "error"; "fatal"]%string)
               ∧ mapLevelToSeverityNumber level = 0)) as Hcases.
  { intros level. unfold mapLevelToSeverityNumber.
    destruct (String.eqb_spec level "debug") as [->|H1]; [by left|].
    destruct (String.eqb_spec level "info") as [->|H2]; [by right; left|].
    destruct (String.eqb_spec level "warning") as [->|H3];
      [by right; right; left|].
    destruct (String.eqb_spec level "error") as [->|H4];
      [by right; right; right; left|].
    destruct (String.eqb_spec level "fatal") as [->|H5];
      [by right; right; right; right; left|].
    do 5 right. split; [|done].
    rewrite !elem_of_cons. intros [?|[?|[?|[?|[?|H]]]]]; try done.
    by apply elem_of_nil in H. }
  split.
  - intros a b Ha E.
    destruct (Hcases a) as [[-> Ea]|[[-> Ea]|[[-> Ea]|[[-> Ea]|[[-> Ea]|[Hn _]]]]]];
      [..|done];
      destruct (Hcases b) as [[-> Eb]|[[-> Eb]|[[-> Eb]|[[-> Eb]|[[-> Eb]|[_ Eb]]]]]];
      try done; rewrite Ea, Eb in E; discriminate E.
  - intros level. unfold SeverityNumber.UNSPECIFIED.
    destruct (Hcases level) as [[-> E]|[[-> E]|[[-> E]|[[-> E]|[[-> E]|[Hn E]]]]]];
      rewrite E; try done;
      (split; [discriminate|]); intros Hout; destruct Hout;
      rewrite !elem_of_cons; tauto.
Qed.

(** ** What does not depend on the renderer *)

(** X21: converting a body again changes nothing, whatever the renderers
    and the message: the entries at even indices are never touched and
    the others are already rendered. *)
Theorem convertMessageToBody_idempotent (host : Host)
    (objectRenderer objectRenderer' : ObjectRenderer)
    (message : list JSValue) :
  convertMessageToBody host
    (convertMessageToBody host message objectRenderer) objectRenderer'
  = convertMessageToBody host message objectRenderer.
Proof.
  rewrite !convertMessageToBody_interleave.
  induction message as [| |x y l IH] using list_pair_ind; [done|done|].
  cbn [interleave]. rewrite IH. do 2 f_equal.
  apply (convertToString_is_rendered host y objectRenderer objectRenderer').
Qed.

(** ** Built-ins that can fail: the two models side by side *)

Lemma try_map_returning {A B : Type} (g : A → B) (l : list A) :
  try_map (λ a, Normal (g a)) l = Normal (map g l).
Proof. induction l as [|a l IH]; [done|]. cbn. by rewrite IH. Qed.

Lemma try_map_ext {A B : Type} (f f' : A → Completion B) (l : list A) :
  (∀ a, f a = f' a) → try_map f l = try_map f' l.
Proof.
  intros Hext. induction l as [|a l IH]; [done|]. cbn. by rewrite Hext, IH.
Qed.

Lemma try_map_erase {A B : Type} (f : A → Completion B) (g : A → B)
    (l : list A) (l' : list B) :
  (∀ a b, f a = Normal b → b = g a) →
  try_map f l = Normal l' → l' = map g l.
Proof.
  intros Hfg. revert l'. induction l as [|a l IH]; intros l'; cbn.
  - by intros [= <-].
  - destruct (f a) as [b|] eqn:Hb; [|done].
    destruct (try_map f l) as [bs|]; [|done]. cbn. intros [= <-].
    by rewrite (Hfg a b Hb), (IH bs).
Qed.

Section Returning.

Variable host : Host.

Lemma try_convertToString_returning v objectRenderer :
  try_convertToString (returning host) v objectRenderer
  = Normal (convertToString host v objectRenderer).
Proof.
  destruct v, objectRenderer; try done; cbn;
    unfold try_inspect, inspect; cbn; by destruct (Deno_inspect host).
Qed.

Lemma try_scan_elements_returning key value objectRenderer t rest
    (attributes : gmap string JSValue) :
  try_scan_elements (returning host) key value objectRenderer t rest
    attributes
  = Normal (scan_elements host key value objectRenderer t rest attributes).
Proof.
  revert t. induction rest as [|v rest IH]; intros t; [done|].
  cbn [try_scan_elements scan_elements].
  destruct (is_nullish v); [apply IH|].
  destruct t as [t'|]; [|apply IH].
  destruct (negb (String.eqb (typeof v) t')); [|apply IH].
  rewrite (try_map_ext _ (λ v, Normal (convertToString host v objectRenderer)))
    by (intros a; apply try_convertToString_returning).
  by rewrite try_map_returning.
Qed.

Lemma try_convert_entry_returning objectRenderer
    (attributes : gmap string JSValue) entry :
  try_convert_entry (returning host) objectRenderer attributes entry
  = Normal (convert_entry host objectRenderer attributes entry).
Proof.
  destruct entry as [name v]. unfold try_convert_entry, convert_entry.
  destruct (is_nullish v); [done|].
  destruct v;
    try (rewrite try_convertToString_returning;
         by destruct (is_nullish (convertToString host _ objectRenderer))).
  by rewrite try_scan_elements_returning.
Qed.

Lemma try_convertToAttributes_returning properties objectRenderer :
  try_convertToAttributes (returning host) properties objectRenderer
  = Normal (convertToAttributes host properties objectRenderer).
Proof.
  unfold try_convertToAttributes, convertToAttributes.
  generalize (∅ : gmap string JSValue).
  induction properties as [|entry properties IH]; intros attributes;
    [done|].
  cbn [try_entries fold_left]. rewrite try_convert_entry_returning.
  apply IH.
Qed.

Lemma try_body_loop_returning fuel message objectRenderer i body :
  try_body_loop (returning host) fuel message objectRenderer i body
  = Normal (body_loop host fuel message objectRenderer i body).
Proof.
  revert i body. induction fuel as [|fuel IH]; intros i body; [done|].
  cbn [try_body_loop body_loop].
  destruct (i <? length message)%nat; [|done].
  destruct (length message <=? i + 1)%nat; [done|].
  rewrite try_convertToString_returning. apply IH.
Qed.

Lemma try_convertMessageToBody_returning message objectRenderer :
  try_convertMessageToBody (returning host) message objectRenderer
  = Normal (convertMessageToBody host message objectRenderer).
Proof. apply try_body_loop_returning. Qed.

Lemma try_Array_join_returning elements separator :
  try_Array_join (returning host) elements separator
  = Normal (Array_join host elements separator).
Proof.
  unfold try_Array_join, Array_join.
  rewrite (try_map_ext _
             (λ v, Normal (if is_nullish v then ""%string
                           else ToString host v))).
  - by rewrite try_map_returning.
  - intros v. destruct (is_nullish v); [done|]. by destruct v.
Qed.

Lemma try_sink_returning options record emitted :
  try_sink (returning host) options record emitted
  = Normal (sink host options record emitted).
Proof.
  unfold try_sink, sink. cbn zeta.
  destruct (segment_is (category record) 0 "logtape"
            && segment_is (category record) 1 "meta"
            && segment_is (category record) 2 "otel"); [done|].
  rewrite try_convertToAttributes_returning,
    try_convertMessageToBody_returning.
  destruct (messageType options) as [[]|];
    try rewrite try_Array_join_returning; done.
Qed.

End Returning.

Section Erasing.

Variable host : ThrowingHost.

(** Where a conversion returns, it returns what the conversion without
    failures gives on the erased host. *)
Lemma try_convertToString_erase v objectRenderer x :
  try_convertToString host v objectRenderer = Normal x →
  x = convertToString (erase host) v objectRenderer.
Proof.
  destruct v, objectRenderer; cbn; try (by intros [= <-]);
    unfold try_inspect, inspect; cbn;
    try (destruct (try_Deno_inspect host) as [deno_inspect|];
         [destruct (deno_inspect _)|destruct (try_JSON_stringify host _)];
         cbn; by intros [= <-]);
    try (destruct (try_JSON_stringify host _); cbn; by intros [= <-]).
  destruct (try_Date_toISOString host t); cbn; by intros [= <-].
Qed.

Lemma try_scan_elements_erase key value objectRenderer t rest
    (attributes attributes' : gmap string JSValue) :
  try_scan_elements host key value objectRenderer t rest attributes
  = Normal attributes' →
  attributes'
  = scan_elements (erase host) key value objectRenderer t rest attributes.
Proof.
  revert t. induction rest as [|v rest IH]; intros t;
    cbn [try_scan_elements scan_elements]; [by intros [= <-]|].
  destruct (is_nullish v); [apply IH|].
  destruct t as [t'|]; [|apply IH].
  destruct (negb (String.eqb (typeof v) t')); [|apply IH].
  destruct (try_map _ value) as [rendered|] eqn:Hmap; cbn; [|done].
  intros [= <-]. f_equal. f_equal.
  apply (try_map_erase _ _ _ _
           (λ a b, try_convertToString_erase a objectRenderer b) Hmap).
Qed.

Lemma try_convert_entry_erase objectRenderer
    (attributes attributes' : gmap string JSValue) entry :
  try_convert_entry host objectRenderer attributes entry
  = Normal attributes' →
  attributes' = convert_entry (erase host) objectRenderer attributes entry.
Proof.
  destruct entry as [name v]. unfold try_convert_entry, convert_entry.
  destruct (is_nullish v); [by intros [= <-]|].
  assert (∀ w,
            match try_convertToString host w objectRenderer with
            | Normal encoded =>
                if is_nullish encoded then Normal attributes
                else Normal (<[("attributes." ++ name)%string := encoded]>
                               attributes)
            | Throw => Throw
            end = Normal attributes' →
            attributes'
            = (let encoded := convertToString (erase host) w objectRenderer in
               if is_nullish encoded then attributes
               else <[("attributes." ++ name)%string := encoded]> attributes))
    as Hscalar.
  { intros w.
    destruct (try_convertToString host w objectRenderer) as [x|] eqn:Hx;
      [|done].
    apply try_convertToString_erase in Hx as <-.
    cbn zeta. destruct (is_nullish x); intros E; by injection E. }
  destruct v; try apply Hscalar.
  destruct (try_scan_elements host _ elements objectRenderer None elements
              attributes) as [scanned|] eqn:Hscan; cbn; [|done].
  intros [= <-]. by rewrite (try_scan_elements_erase _ _ _ _ _ _ _ Hscan).
Qed.

Lemma try_convertToAttributes_erase properties objectRenderer
    (attributes : gmap string JSValue) :
  try_convertToAttributes host properties objectRenderer = Normal attributes →
  attributes = convertToAttributes (erase host) properties objectRenderer.
Proof.
  unfold try_convertToAttributes, convertToAttributes.
  generalize (∅ : gmap string JSValue).
  induction properties as [|entry properties IH]; intros start;
    cbn [try_entries fold_left]; [by intros [= <-]|].
  destruct (try_convert_entry host objectRenderer start entry)
    as [next|] eqn:Hentry; [|done].
  rewrite <- (try_convert_entry_erase _ _ _ _ Hentry). apply IH.
Qed.

Lemma try_body_loop_erase fuel message objectRenderer i body body' :
  try_body_loop host fuel message objectRenderer i body = Normal body' →
  body' = body_loop (erase host) fuel message objectRenderer i body.
Proof.
  revert i body. induction fuel as [|fuel IH]; intros i body;
    cbn [try_body_loop body_loop]; [by intros [= <-]|].
  destruct (i <? length message)%nat; [|by intros [= <-]].
  destruct (length message <=? i + 1)%nat; [by intros [= <-]|].
  destruct (try_convertToString host (at_index message (i + 1))
              objectRenderer) as [x|] eqn:Hx; [|done].
  rewrite <- (try_convertToString_erase _ _ _ Hx). apply IH.
Qed.

Lemma try_Array_join_erase elements separator text :
  try_Array_join host elements separator = Normal text →
  text = Array_join (erase host) elements separator.
Proof.
  unfold try_Array_join, Array_join.
  destruct (try_map _ elements) as [texts|] eqn:Hmap; cbn; [|done].
  intros [= <-]. f_equal.
  apply (try_map_erase
           (λ v, if is_nullish v then Normal ""%string
                 else try_ToString host v)
           (λ v, if is_nullish v then ""%string
                 else ToString (erase host) v) elements texts); [|done].
  intros v s. destruct (is_nullish v); [by intros [= <-]|].
  destruct v; cbn; try (by intros [= <-]);
    by destruct (try_Object_toString host _); intros [= <-].
Qed.

(** Where the sink returns, it has done what the sink without failures
    does on the erased host. *)
Lemma try_sink_erase options record emitted out :
  try_sink host options record emitted = Normal out →
  out = sink (erase host) options record emitted.
Proof.
  unfold try_sink, sink. cbn zeta.
  destruct (segment_is (category record) 0 "logtape"
            && segment_is (category record) 1 "meta"
            && segment_is (category record) 2 "otel"); [by intros [= <-]|].
  destruct (try_convertToAttributes host _ _) as [attributes|] eqn:Ha;
    [|done].
  apply try_convertToAttributes_erase in Ha as <-.
  destruct (try_convertMessageToBody host _ _) as [body|] eqn:Hb; [|done].
  apply try_body_loop_erase in Hb.
  fold (convertMessageToBody (erase host) (message record)
          (default Inspect (objectRenderer options))) in Hb.
  rewrite <- Hb.
  destruct (messageType options) as [[]|].
  - destruct (try_Array_join host _ _) as [text|] eqn:Hj; cbn; [|done].
    apply try_Array_join_erase in Hj as <-. by intros [= <-].
  - by intros [= <-].
  - destruct (try_Array_join host _ _) as [text|] eqn:Hj; cbn; [|done].
    apply try_Array_join_erase in Hj as <-. by intros [= <-].
Qed.

(** A record under [logtape], [meta], [otel] is dropped before any
    conversion. *)
Lemma try_sink_suppressed options record emitted :
  is_meta_otel (category record) →
  try_sink host options record emitted = Normal emitted.
Proof.
  intros Hmeta. apply guard_is_meta_otel in Hmeta.
  unfold try_sink. cbn zeta. by rewrite Hmeta.
Qed.

(** For every other record the sink throws exactly when one of its
    conversions does. *)
Lemma try_sink_returns options record emitted :
  ¬ is_meta_otel (category record) →
  conversions_return host options record
  ↔ ∃ out, try_sink host options record emitted = Normal out.
Proof.
  intros Hother. rewrite <- guard_is_meta_otel in Hother.
  apply not_true_is_false in Hother.
  unfold conversions_return, try_sink. cbn zeta. rewrite Hother. split.
  - intros (attributes & body & -> & -> & Hjoin).
    destruct (messageType options) as [[]|];
      try (destruct Hjoin as [?|[text ->]]; [done|]; cbn; by eexists).
    by eexists.
  - destruct (try_convertToAttributes host _ _) as [attributes|];
      [|by intros [? ?]].
    destruct (try_convertMessageToBody host _ _) as [body|];
      [|by intros [? ?]].
    intros [out Hout]. exists attributes, body. split_and!; [done|done|].
    destruct (messageType options) as [[]|]; [|by left|];
      right; destruct (try_Array_join host _ _) as [text|];
      try done; by exists text.
Qed.

(** The sink only appends, when it returns. *)
Lemma try_sink_frame options record emitted :
  try_sink host options record emitted
  = on_normal (app emitted) (try_sink host options record []).
Proof.
  unfold try_sink. cbn zeta.
  destruct (segment_is (category record) 0 "logtape"
            && segment_is (category record) 1 "meta"
            && segment_is (category record) 2 "otel");
    [cbn; by rewrite app_nil_r|].
  destruct (try_convertToAttributes host _ _); [|done].
  destruct (try_convertMessageToBody host _ _); [|done].
  by destruct (match messageType options with
               | Some ArrayMessage => _
               | _ => _
               end).
Qed.

End Erasing.

(** ** The sink when a conversion can fail *)

(** C2, amended: a record whose category starts with [logtape], [meta],
    [otel] is dropped without emission, whatever its level and content,
    even content on which a conversion would throw.  Every other record
    is emitted once, with its level and category, when its conversions
    return; when one of them throws, the failure leaves the sink and
    nothing is emitted.  On a host whose built-ins always return the
    conversions return, and the sink does what [sink] does. *)
Theorem sink_emits_unless_meta_otel_or_failure (host : ThrowingHost)
    (options : OpenTelemetrySinkOptions) (record : LogRecord)
    (emitted : list OT.LogRecord) :
  (is_meta_otel (category record) →
   try_sink host options record emitted = Normal emitted)
  ∧ (¬ is_meta_otel (category record) →
     conversions_return host options record →
     ∃ r, try_sink host options record emitted = Normal (emitted ++ [r])
        ∧ OT.severityNumber r = mapLevelToSeverityNumber (level record)
        ∧ OT.severityText r = level record
        ∧ OT.attributes r !! "category"
          = Some (VArray (map VString (category record))))
  ∧ (¬ is_meta_otel (category record) →
     ¬ conversions_return host options record →
     try_sink host options record emitted = Throw)
  ∧ (∀ returns : Host,
       conversions_return (returning returns) options record
       ∧ try_sink (returning returns) options record emitted
         = Normal (sink returns options record emitted)).
Proof.
  split_and!.
  - apply try_sink_suppressed.
  - intros Hother Hreturn.
    apply (try_sink_returns host options record emitted Hother) in Hreturn
      as [out Hout].
    pose proof (try_sink_erase host options record emitted out Hout) as ->.
    destruct (sink_emitted (erase host) options record emitted Hother)
      as (r & Hr & Hnum & Htext & Hcat & _).
    exists r. by rewrite Hout, Hr.
  - intros Hother Hfail.
    destruct (try_sink host options record emitted) as [out|] eqn:Hout;
      [|done].
    destruct Hfail.
    apply (try_sink_returns host options record emitted Hother).
    by exists out.
  - intros returns. split; [|apply try_sink_returning].
    unfold conversions_return.
    rewrite try_convertToAttributes_returning,
      try_convertMessageToBody_returning.
    eexists _, _. split_and!; [done|done|]. right.
    rewrite try_Array_join_returning. by eexists.
Qed.

(** C2 as stated fails: the record below is not under [logtape], [meta],
    [otel]; its property holds an object whose [toJSON] throws, so
    [JSON.stringify] throws inside [convertToAttributes], and the sink is
    left before [logger.emit]: no record is emitted. *)
Lemma failing_conversion_emits_nothing :
  ¬ is_meta_otel ["app"]%string
  ∧ try_sink ThrowingReference.host
      {| messageType := None; objectRenderer := Some Json |}
      {| category := ["app"]%string; level := "info";
         message := [VString "request failed"]; timestamp := Int 0;
         properties :=
           [("request"%string,
             VObject [("toJSON"%string,
                       ThrowingReference.throwing_function)])] |} []
    = Throw.
Proof. split; [unfold is_meta_otel; simpl; discriminate|reflexivity]. Qed.

(** The same record under [logtape], [meta], [otel] is dropped, and so is
    not converted, and a record without such a value is emitted. *)
Example sink_on_the_failing_host :
  try_sink ThrowingReference.host
    {| messageType := None; objectRenderer := Some Json |}
    {| category := ["logtape"; "meta"; "otel"]%string; level := "info";
       message := [VString "request failed"]; timestamp := Int 0;
       properties :=
         [("request"%string,
           VObject [("toJSON"%string,
                     ThrowingReference.throwing_function)])] |} []
  = Normal []
  ∧ on_normal (fmap OT.body)
      (try_sink ThrowingReference.host
         {| messageType := None; objectRenderer := Some Json |}
         {| category := ["app"]%string; level := "info";
            message := [VString "n="; VNumber (Int 2)]; timestamp := Int 0;
            properties := [("ok"%string, VBoolean true)] |} [])
    = Normal [VString "n=2"].
Proof. split; reflexivity. Qed.

(** X10: over a run of records on which no call of the sink throws, the
    sink only ever appends, and it emits one record for each record that
    is not under [logtape], [meta], [otel], in the order of arrival, each
    with the level and the category of its record. *)
Theorem try_run_sink_emits_in_order (host : ThrowingHost)
    (options : OpenTelemetrySinkOptions) (records : list LogRecord)
    (emitted : list OT.LogRecord) :
  (∀ record, record ∈ records →
     ∃ out, try_sink host options record [] = Normal out) →
  ∃ out,
    try_run_sink host options records emitted = Normal (emitted ++ out)
    ∧ length out
      = length (List.filter
                  (λ record, negb (is_meta_otelb (category record))) records)
    ∧ map OT.severityText out
      = map level
          (List.filter
             (λ record, negb (is_meta_otelb (category record))) records)
    ∧ map (λ r, OT.attributes r !! "category") out
      = map (λ record, Some (VArray (map VString (category record))))
          (List.filter
             (λ record, negb (is_meta_otelb (category record))) records).
Proof.
  revert emitted.
  induction records as [|record records IH]; intros emitted Hreturn.
  - exists []. by rewrite app_nil_r.
  - destruct (Hreturn record) as [first Hfirst]; [left|].
    destruct (IH (emitted ++ first)) as (out & Hrun & Hlen & Htext & Hcat).
    { intros r Hr. apply Hreturn. by right. }
    exists (first ++ out).
    cbn [try_run_sink List.filter]. rewrite try_sink_frame, Hfirst. cbn.
    rewrite Hrun, app_assoc. split; [done|].
    pose proof (try_sink_erase host options record [] first Hfirst) as ->.
    destruct (is_meta_otelb (category record)) eqn:Hmeta; cbn [negb].
    + apply bool_decide_eq_true in Hmeta.
      by rewrite (sink_suppressed (erase host) options record [] Hmeta).
    + assert (¬ is_meta_otel (category record)) as Hother.
      { unfold is_meta_otelb in Hmeta.
        by apply bool_decide_eq_false in Hmeta. }
      destruct (sink_emitted (erase host) options record [] Hother)
        as (r & -> & _ & Hr_text & Hr_cat & _).
      cbn. by rewrite Hlen, Htext, Hcat, Hr_text, Hr_cat.
Qed.

Lemma try_run_sink_emits_in_order_witness :
  ∃ out,
    try_run_sink ThrowingReference.host
      {| messageType := None; objectRenderer := Some Json |}
      [ {| category := ["app"]%string; level := "info";
           message := [VString "a"]; timestamp := Int 1; properties := [] |};
        {| category := ["logtape"; "meta"; "otel"]%string; level := "debug";
           message := [VString "b"]; timestamp := Int 2; properties := [] |};
        {| category := ["app"; "db"]%string; level := "error";
           message := [VString "c"]; timestamp := Int 3; properties := [] |} ]
      []
    = Normal ([] ++ out)
    ∧ length out = 2%nat
    ∧ map OT.severityText out = ["info"; "error"]%string
    ∧ map (λ r, OT.attributes r !! "category") out
      = [Some (VArray [VString "app"]);
         Some (VArray [VString "app"; VString "db"])].
Proof.
  apply (try_run_sink_emits_in_order ThrowingReference.host
           {| messageType := None; objectRenderer := Some Json |}
           [ {| category := ["app"]%string; level := "info";
                message := [VString "a"]; timestamp := Int 1;
                properties := [] |};
             {| category := ["logtape"; "meta"; "otel"]%string;
                level := "debug";
                message := [VString "b"]; timestamp := Int 2;
                properties := [] |};
             {| category := ["app"; "db"]%string; level := "error";
                message := [VString "c"]; timestamp := Int 3;
                properties := [] |} ] []).
  intros record Hin.
  apply elem_of_cons in Hin as [->|Hin]; [by eexists|].
  apply elem_of_cons in Hin as [->|Hin]; [by eexists|].
  apply elem_of_cons in Hin as [->|Hin]; [by eexists|].
  by apply elem_of_nil in Hin.
Defined.

(** X15: the sink neither checks nor clamps the timestamp: for a record
    whose timestamp is [NaN], an infinity, or a whole number of
    milliseconds of magnitude above 8.64e15, the record the sink emits
    carries an invalid Date ([getTime()] is [NaN]). *)
Theorem invalid_timestamp_is_emitted_as_invalid_date (host : ThrowingHost)
    (options : OpenTelemetrySinkOptions) (record : LogRecord)
    (emitted out : list OT.LogRecord) :
  ¬ is_meta_otel (category record) →
  timestamp record = NaN
  ∨ (∃ negative, timestamp record = Infinity negative)
  ∨ (∃ ms, timestamp record = Int ms ∧ 8640000000000000 < Z.abs ms) →
  try_sink host options record emitted = Normal out →
  ∃ r, out = emitted ++ [r] ∧ getTime (OT.timestamp r) = NaN.
Proof.
  intros Hother Htime Hout.
  pose proof (try_sink_erase host options record emitted out Hout) as ->.
  destruct (sink_emitted (erase host) options record emitted Hother)
    as (r & Hr & _ & _ & _ & Hdate & _).
  exists r. split; [done|]. rewrite Hdate.
  unfold getTime, new_Date, TimeClip. cbn [time_value].
  destruct Htime as [->|[[negative ->]|(ms & -> & Hms)]]; [done|done|].
  destruct (Z.leb_spec (Z.abs ms) 8640000000000000); [lia|done].
Qed.

Lemma invalid_timestamp_is_emitted_as_invalid_date_witness :
  ∃ r, sink Reference.host
         {| messageType := None; objectRenderer := None |}
         {| category := ["app"]%string; level := "info";
            message := [VString "m"]; timestamp := Infinity false;
            properties := [] |} []
       = [] ++ [r]
     ∧ getTime (OT.timestamp r) = NaN.
Proof.
  apply (invalid_timestamp_is_emitted_as_invalid_date
           (returning Reference.host)
           {| messageType := None; objectRenderer := None |}
           {| category := ["app"]%string; level := "info";
              message := [VString "m"]; timestamp := Infinity false;
              properties := [] |} []).
  - unfold is_meta_otel. simpl. discriminate.
  - right. left. by exists false.
  - reflexivity.
Defined.

(** ** Properties that no built-in decides *)

(** X6: under the [json] renderer a property whose value is a boolean, a
    number or a string is in every result of [convertToAttributes], as a
    string: the boolean's or number's [toString()], the string itself;
    for a safe integer that is its decimal digits.  No built-in that can
    fail is called for it. *)
Theorem json_scalars_are_always_emitted (host : ThrowingHost)
    (properties : list (string * JSValue))
    (attributes : gmap string JSValue) (name : string) (v : JSValue) :
  try_convertToAttributes host properties Json = Normal attributes →
  NoDup properties.*1 →
  (name, v) ∈ properties →
  match v with
  | VBoolean _ | VNumber _ | VString _ => True
  | _ => False
  end →
  try_convertToString host v Json ≠ Throw
  ∧ ∃ s, attributes !! attribute_key name = Some (VString s)
       ∧ match v with
         | VBoolean b => s = if b then "true"%string else "false"%string
         | VString s' => s = s'
         | VNumber NaN => s = "NaN"%string
         | VNumber (Infinity negative) =>
             s = if negative then "-Infinity"%string else "Infinity"%string
         | VNumber (Int z) => Z.abs z ≤ 9007199254740991 → s = decimal z
         | _ => True
         end.
Proof.
  intros Hreturn Hnodup Hin Hv.
  apply try_convertToAttributes_erase in Hreturn as ->.
  unfold convertToAttributes.
  rewrite (fold_lookup_entry (erase host) Json properties ∅ name v) by done.
  destruct v as [| |b|n|s| | | | ]; try done.
  - split; [done|]. eexists. split; [reflexivity|]. by destruct b.
  - split; [done|]. eexists. split; [reflexivity|]. by destruct n as [z| |[]].
  - split; [done|]. by eexists.
Qed.

Lemma json_scalars_are_always_emitted_witness :
  try_convertToString ThrowingReference.host (VNumber (Int 42)) Json ≠ Throw
  ∧ ∃ s, ({[ "attributes.n"%string := VString "42";
             "attributes.ok"%string := VString "true" ]}
            : gmap string JSValue)
           !! attribute_key "n" = Some (VString s)
       ∧ (Z.abs 42 ≤ 9007199254740991 → s = decimal 42).
Proof.
  apply (json_scalars_are_always_emitted ThrowingReference.host
           [("n"%string, VNumber (Int 42)); ("ok"%string, VBoolean true);
            ("gone"%string, VUndefined)]
           {[ "attributes.n"%string := VString "42";
              "attributes.ok"%string := VString "true" ]}
           "n" (VNumber (Int 42))).
  - reflexivity.
  - by apply (bool_decide_unpack _).
  - left.
  - exact I.
Defined.

Section NoBuiltin.

Variable host : ThrowingHost.
Variable objectRenderer : ObjectRenderer.

(** On elements of one type the loop never comes to render them. *)
Lemma try_scan_elements_typed key value t rest
    (attributes : gmap string JSValue) :
  all_of_type t rest →
  try_scan_elements host key value objectRenderer (Some t) rest attributes
  = Normal attributes.
Proof.
  induction rest as [|v rest IH]; [done|]. cbn [try_scan_elements].
  destruct (is_nullish v) eqn:Hnull; unfold all_of_type.
  - rewrite (element_types_nullish v rest Hnull). apply IH.
  - rewrite (element_types_typed v rest Hnull). intros Hall.
    rewrite (Hall (typeof v)) by left. rewrite String.eqb_refl. cbn [negb].
    apply IH. intros t' Ht'. apply Hall. by right.
Qed.

Lemma try_scan_elements_homogeneous key value rest
    (attributes : gmap string JSValue) :
  homogeneous rest →
  try_scan_elements host key value objectRenderer None rest attributes
  = Normal attributes.
Proof.
  induction rest as [|v rest IH]; [done|]. cbn [try_scan_elements].
  destruct (is_nullish v) eqn:Hnull; unfold homogeneous.
  - rewrite (element_types_nullish v rest Hnull). apply IH.
  - rewrite (element_types_typed v rest Hnull). intros Hall.
    apply try_scan_elements_typed. intros t' Ht'. symmetry.
    apply Hall; [by left|by right].
Qed.

End NoBuiltin.

(** X22: strings and unmixed arrays pass through [convertToAttributes]
    without any built-in being called: for properties whose values are
    strings, [null], [undefined], or arrays whose elements other than
    [null] and [undefined] have one [typeof], the call returns on every
    host, also one whose built-ins throw, and its result is the same
    under both renderers. *)
Theorem strings_and_unmixed_arrays_call_no_builtin (host : ThrowingHost)
    (host' : Host) (objectRenderer objectRenderer' : ObjectRenderer)
    (properties : list (string * JSValue)) :
  (∀ name v, (name, v) ∈ properties →
     match v with
     | VString _ | VNull | VUndefined => True
     | VArray elements => homogeneous elements
     | _ => False
     end) →
  try_convertToAttributes host properties objectRenderer
  = Normal (convertToAttributes host' properties objectRenderer').
Proof.
  unfold try_convertToAttributes, convertToAttributes.
  generalize (∅ : gmap string JSValue).
  induction properties as [|[name v] properties IH];
    intros attributes Hvalues; cbn [try_entries fold_left]; [done|].
  assert (try_convert_entry host objectRenderer attributes (name, v)
          = Normal (convert_entry host' objectRenderer' attributes (name, v)))
    as ->.
  { pose proof (Hvalues name v (list_elem_of_here _ _)) as Hv.
    rewrite convert_entry_spec. unfold try_convert_entry.
    destruct v; try done. cbn.
    by rewrite (try_scan_elements_homogeneous host objectRenderer _ _ _ _ Hv). }
  apply IH. intros n w Hin. apply (Hvalues n w). by right.
Qed.

Lemma strings_and_unmixed_arrays_call_no_builtin_witness :
  try_convertToAttributes
    {| try_Deno_inspect := Some (λ _, Throw);
       try_JSON_stringify := λ _, Throw;
       try_Date_toISOString := λ _, Throw;
       try_Object_toString := λ _, Throw |}
    [("s"%string, VString "x");
     ("l"%string, VArray [VNumber (Int 1); VNull; VNumber NaN])] Inspect
  = Normal
      (convertToAttributes Reference.host
         [("s"%string, VString "x");
          ("l"%string, VArray [VNumber (Int 1); VNull; VNumber NaN])] Json).
Proof.
  apply (strings_and_unmixed_arrays_call_no_builtin
           {| try_Deno_inspect := Some (λ _, Throw);
              try_JSON_stringify := λ _, Throw;
              try_Date_toISOString := λ _, Throw;
              try_Object_toString := λ _, Throw |}
           Reference.host Inspect Json
           [("s"%string, VString "x");
            ("l"%string, VArray [VNumber (Int 1); VNull; VNumber NaN])]).
  intros n w Hin.
  apply elem_of_cons in Hin as [Heq|Hin]; [by inversion Heq|].
  apply elem_of_cons in Hin as [Heq|Hin].
  - inversion Heq. subst. intros a b Ha Hb.
    apply elem_of_cons in Ha as [->|Ha]; apply elem_of_cons in Hb as [->|Hb];
      try done.
    + apply elem_of_cons in Hb as [->|Hb]; [done|by apply elem_of_nil in Hb].
    + apply elem_of_cons in Ha as [->|Ha]; [done|by apply elem_of_nil in Ha].
    + apply elem_of_cons in Ha as [->|Ha]; [|by apply elem_of_nil in Ha].
      apply elem_of_cons in Hb as [->|Hb]; [done|by apply elem_of_nil in Hb].
  - by apply elem_of_nil in Hin.
Defined.
